(** * The PostgreSQL plugin of nifty-lil-tricks-testing: orchestration core

    A shallow embedding of [plugin_postgresql/plugin.ts] (class
    [PluginFactory]) and the properties of its setup/teardown lifecycle.

    The plugin is asynchronous code over collaborators that live in other
    modules ([server.ts], [server_docker.ts], [server_connection.ts],
    [database.ts], [migration_sql.ts], [seed.ts]).  An [await] suspends the
    async function until the awaited promise settles, so the plugin's own
    control flow is sequential: it is written here in a monad that threads
    the external world, stops at the first rejection, and records every call
    the plugin makes to a collaborator. *)

From Stdlib Require Import String List ZArith.
From Stdlib Require Import Ascii DecimalString.
Import ListNotations.
Local Open Scope string_scope.

(** ** JavaScript values *)

(** A thrown [Error]: plugin.ts only ever builds one from a message. *)
Record Error : Type := mkError { message : string }.

(** A promise-returning operation of a collaborator, run against the external
    world [W] (containers, databases, the random source): it settles either
    rejected with an error ([inl]) or fulfilled with a value ([inr]), and
    leaves a new world. *)
Definition Promise (W A : Type) : Type := W -> (Error + A) * W.

(** [() => Promise.resolve()] *)
Definition Promise_resolve {W : Type} : Promise W unit := fun w => (inr tt, w).

(** [a || b] on an optional string: [undefined] and the empty string are
    falsy. *)
Definition or_else (a : option string) (b : string) : string :=
  match a with
  | Some s => if String.eqb s "" then b else s
  | None => b
  end.

(** [a ?? b]: only [undefined]/[null] give way to [b]. *)
Definition nullish {A : Type} (a : option A) (b : A) : A :=
  match a with
  | Some x => x
  | None => b
  end.

(** ** Data shapes *)

(** [ServerConfig]: the fields [#setupNewDatabaseServer] reads. *)
Module ServerConfig.
Record t : Type := mk {
  strategy : string;
  port : option Z;
  user : option string;
  password : option string;
  databaseName : option string;
  databaseNamePrefix : option string;
  databaseServerNamePrefix : option string;
  version : option string
}.
End ServerConfig.

(** [DockerServerStrategyConfig]: the object literal of lines 98-105. *)
Module DockerServerStrategyConfig.
Record t : Type := mk {
  serverName : string;
  port : Z;
  user : string;
  password : string;
  database : string;
  version : string
}.
End DockerServerStrategyConfig.

(** [MigrationConfig]: [{ strategy, root }]. *)
Module MigrationConfig.
Record t : Type := mk {
  strategy : string;
  root : string
}.
End MigrationConfig.

(** [MigrationOutput] and [SeedOutput]: [{ results: [...] }]. *)
Module MigrationOutput.
Record t (R : Type) : Type := mk { results : list R }.
Arguments mk {R} _.
Arguments results {R} _.
End MigrationOutput.

Module SeedOutput.
Record t (R : Type) : Type := mk { results : list R }.
Arguments mk {R} _.
Arguments results {R} _.
End SeedOutput.

(** [PluginInstance<T>]: [{ teardown, output }]. *)
Module PluginInstance.
Record t (W A : Type) : Type := mk {
  teardown : Promise W unit;
  output : A
}.
Arguments mk {W A} _ _.
Arguments teardown {W A} _.
Arguments output {W A} _.
End PluginInstance.

(** [DatabaseOutput]: [{ server, teardown }]. *)
Module DatabaseOutput.
Record t (W S : Type) : Type := mk {
  server : S;
  teardown : Promise W unit
}.
Arguments mk {W S} _ _.
Arguments server {W S} _.
Arguments teardown {W S} _.
End DatabaseOutput.

(** [PluginResult]: [{ server, migrate, seed }], none of them optional. *)
Module PluginResult.
Record t (S MR SR : Type) : Type := mk {
  server : S;
  migrate : MigrationOutput.t MR;
  seed : SeedOutput.t SR
}.
Arguments mk {S MR SR} _ _ _.
Arguments server {S MR SR} _.
Arguments migrate {S MR SR} _.
Arguments seed {S MR SR} _.
End PluginResult.

(** [config.server: ServerConfig | Server], told apart by [instanceof]. *)
Inductive ServerOrConfig (S : Type) : Type :=
| ExistingServer (server : S)
| NewServer (config : ServerConfig.t).
Arguments ExistingServer {S} _.
Arguments NewServer {S} _.

(** [PluginConfig]: [database], [migrate] and [seed] are optional. *)
Module PluginConfig.
Record t (S DC SC : Type) : Type := mk {
  server : ServerOrConfig S;
  database : option DC;
  migrate : option MigrationConfig.t;
  seed : option SC
}.
Arguments mk {S DC SC} _ _ _ _.
Arguments server {S DC SC} _.
Arguments database {S DC SC} _.
Arguments migrate {S DC SC} _.
Arguments seed {S DC SC} _.
End PluginConfig.

(** ** Collaborators

    Everything plugin.ts imports and calls.  The plugin treats servers,
    connections, the database and seed configurations and the result rows as
    opaque, so they are type members here. *)
Class Externals : Type := {
  World : Type;
  Server : Type;
  Connection : Type;
  DatabaseConfig : Type;
  SeedConfig : Type;
  MigrationResult : Type;
  SeedResult : Type;
  (** the enum members [ServerStrategy.DOCKER] and [MigrationStrategy.SQL] *)
  ServerStrategy_DOCKER : string;
  MigrationStrategy_SQL : string;
  (** [server.connection] *)
  connection : Server -> Connection;
  (** [Math.random().toString(36).substring(2)]: never throws *)
  Math_random_string : World -> string * World;
  (** [server.init()] *)
  Server_init : Server -> Promise World unit;
  (** [new ConnectionStrategy(server).setup()] *)
  ConnectionStrategy_setup :
    Server -> Promise World (PluginInstance.t World Server);
  (** [new DockerServerStrategy(dockerConfig).setup()] *)
  DockerServerStrategy_setup :
    DockerServerStrategyConfig.t ->
    Promise World (PluginInstance.t World Server);
  (** [new DatabaseStrategy(config.database, server).run()] *)
  DatabaseStrategy_run :
    DatabaseConfig -> Server -> Promise World (DatabaseOutput.t World Server);
  (** [new SqlMigrationStrategy(config.migrate, server.connection).run()] *)
  SqlMigrationStrategy_run :
    MigrationConfig.t -> Connection ->
    Promise World (MigrationOutput.t MigrationResult);
  (** [new SeedStrategy(config.seed, server.connection).run()] *)
  SeedStrategy_run :
    SeedConfig -> Connection -> Promise World (SeedOutput.t SeedResult)
}.

Section Plugin.

Context {X : Externals}.

(** [SetupTestsTeardown], [() => Promise<void>]. *)
Definition Teardown : Type := Promise World unit.

Definition Config : Type := PluginConfig.t Server DatabaseConfig SeedConfig.
Definition Result : Type := PluginResult.t Server MigrationResult SeedResult.

(** ** The plugin's calls to its collaborators *)

Inductive Call : Type :=
| Call_Math_random
| Call_ConnectionStrategy_setup (server : Server)
| Call_DockerServerStrategy_setup (config : DockerServerStrategyConfig.t)
| Call_Server_init (server : Server)
| Call_DatabaseStrategy_run (config : DatabaseConfig) (server : Server)
| Call_SqlMigrationStrategy_run (config : MigrationConfig.t) (conn : Connection)
| Call_SeedStrategy_run (config : SeedConfig) (conn : Connection).

(** ** The monad of the plugin's own functions *)

(** How a run of one of the plugin's functions ends: settled result, world
    left behind, and the collaborator calls made, oldest first. *)
Record Outcome (A : Type) : Type := mkOutcome {
  result : Error + A;
  world : World;
  calls : list Call
}.
Arguments mkOutcome {A} _ _ _.
Arguments result {A} _.
Arguments world {A} _.
Arguments calls {A} _.

Definition Async (A : Type) : Type := World -> Outcome A.

Definition ret {A : Type} (a : A) : Async A :=
  fun w => mkOutcome (inr a) w [].

(** [throw e] *)
Definition throw {A : Type} (e : Error) : Async A :=
  fun w => mkOutcome (inl e) w [].

(** [const x = await m; k x]: a rejection of [m] ends the function. *)
Definition bind {A B : Type} (m : Async A) (k : A -> Async B) : Async B :=
  fun w =>
    let o := m w in
    match result o with
    | inl e => mkOutcome (inl e) (world o) (calls o)
    | inr a =>
        let o' := k a (world o) in
        mkOutcome (result o') (world o') (calls o ++ calls o')
    end.

(** One call to a collaborator, recorded. *)
Definition call {A : Type} (c : Call) (p : Promise World A) : Async A :=
  fun w => let r := p w in mkOutcome (fst r) (snd r) [c].

(** [Math.random().toString(36).substring(2)] *)
Definition random_string : Async string :=
  call Call_Math_random
       (fun w => let r := Math_random_string w in (inr (fst r), snd r)).

(** [server.init()], the readiness handshake *)
Definition init (server : Server) : Async unit :=
  call (Call_Server_init server) (Server_init server).

Notation "x <- m ;; k" := (bind m (fun x => k))
  (at level 100, m at next level, right associativity).

(** ** [assertNever] *)

(** Modelled from the spec: [assertNever] is imported from the package's
    [mod.ts], which is not among the sources.  The spec calls it a runtime
    assert-impossible-case that fails loudly and immediately; its result
    type in plugin.ts is that of a function that never returns.  It throws
    an [Error] carrying the message it is given. *)
Definition assertNever {A : Type} (msg : string) : Async A :=
  throw (mkError msg).

(** ** [PluginFactory] *)

(** [#buildTeardown] (lines 63-71): the closure runs the teardowns front to
    back, awaiting each; there is no [try], so the first rejection leaves the
    loop. *)
Fixpoint buildTeardown (teardowns : list Teardown) : Teardown :=
  match teardowns with
  | [] => fun w => (inr tt, w)
  | teardown :: rest =>
      fun w =>
        match teardown w with
        | (inr _, w') => buildTeardown rest w'
        | (inl e, w') => (inl e, w')
        end
  end.

(** [#setupExistingDatabaseServer] (lines 73-78) *)
Definition setupExistingDatabaseServer (server : Server)
  : Async (PluginInstance.t World Server) :=
  call (Call_ConnectionStrategy_setup server) (ConnectionStrategy_setup server).

(** [#setupNewDatabaseServer] (lines 80-116) *)
Definition setupNewDatabaseServer (config : ServerConfig.t)
  : Async (PluginInstance.t World Server) :=
  suffix <- random_string ;;
  let database :=
    or_else (ServerConfig.databaseName config)
            (or_else (ServerConfig.databaseNamePrefix config) "postgres"
               ++ "-" ++ suffix) in
  let serverName :=
    or_else (ServerConfig.databaseServerNamePrefix config) "postgres"
      ++ "-" ++ suffix in
  let port := nullish (ServerConfig.port config) 0%Z in
  user <- match ServerConfig.user config with
          | Some u => ret u
          | None => random_string
          end ;;
  password <- match ServerConfig.password config with
              | Some p => ret p
              | None => random_string
              end ;;
  let version := or_else (ServerConfig.version config) "latest" in
  if String.eqb (ServerConfig.strategy config) ServerStrategy_DOCKER then
    let dockerConfig :=
      DockerServerStrategyConfig.mk serverName port user password database
                                    version in
    call (Call_DockerServerStrategy_setup dockerConfig)
         (DockerServerStrategy_setup dockerConfig)
  else
    assertNever ("Unknown strategy: " ++ ServerConfig.strategy config).

(** [#shouldRunDatabaseCreation] (lines 118-127) *)
Definition shouldRunDatabaseCreation (config : Config) (server : Server)
  : Async (DatabaseOutput.t World Server) :=
  match PluginConfig.database config with
  | None => ret (DatabaseOutput.mk server Promise_resolve)
  | Some database =>
      call (Call_DatabaseStrategy_run database server)
           (DatabaseStrategy_run database server)
  end.

(** [#shouldRunMigration] (lines 129-151) *)
Definition shouldRunMigration (config : Config) (server : Server)
  : Async (MigrationOutput.t MigrationResult) :=
  match PluginConfig.migrate config with
  | None => ret (MigrationOutput.mk [])
  | Some migrate =>
      if String.eqb (MigrationConfig.strategy migrate) MigrationStrategy_SQL
      then
        call (Call_SqlMigrationStrategy_run migrate (connection server))
             (SqlMigrationStrategy_run migrate (connection server))
      else
        assertNever ("Unknown migration strategy: "
                       ++ MigrationConfig.strategy migrate)
  end.

(** [#shouldRunSeed] (lines 153-162) *)
Definition shouldRunSeed (config : Config) (server : Server)
  : Async (SeedOutput.t SeedResult) :=
  match PluginConfig.seed config with
  | None => ret (SeedOutput.mk [])
  | Some seed =>
      call (Call_SeedStrategy_run seed (connection server))
           (SeedStrategy_run seed (connection server))
  end.

(** The [if]/[else] of [#setup], lines 39-43. *)
Definition setupDatabaseServer (server : ServerOrConfig Server)
  : Async (PluginInstance.t World Server) :=
  match server with
  | ExistingServer s => setupExistingDatabaseServer s
  | NewServer c => setupNewDatabaseServer c
  end.

(** [#setup] (lines 35-61).  The object literal of the [return] evaluates
    its properties in order: the composite teardown is built first, then the
    migration is awaited, then the seed. *)
Definition setup (config : Config)
  : Async (PluginInstance.t World Result) :=
  setup <- setupDatabaseServer (PluginConfig.server config) ;;
  let teardown := PluginInstance.teardown setup in
  _ <- init (PluginInstance.output setup) ;;
  db <- shouldRunDatabaseCreation config (PluginInstance.output setup) ;;
  let server := DatabaseOutput.server db in
  let teardownDatabase := DatabaseOutput.teardown db in
  let composite := buildTeardown [teardownDatabase; teardown] in
  migrate <- shouldRunMigration config server ;;
  seed <- shouldRunSeed config server ;;
  ret (PluginInstance.mk composite (PluginResult.mk server migrate seed)).


(** ** Vocabulary of the properties *)

(** The phases of the pipeline, in the order of the spec's state machine;
    the readiness handshake [init()] is a step of its own. *)
Inductive Phase : Type :=
| ServerSetup
| ServerInit
| DatabaseSetup
| MigrationRun
| SeedRun.

(** The phase a collaborator call belongs to; drawing a random string is
    part of no collaborator's work. *)
Definition phase_of (c : Call) : option Phase :=
  match c with
  | Call_Math_random => None
  | Call_ConnectionStrategy_setup _ => Some ServerSetup
  | Call_DockerServerStrategy_setup _ => Some ServerSetup
  | Call_Server_init _ => Some ServerInit
  | Call_DatabaseStrategy_run _ _ => Some DatabaseSetup
  | Call_SqlMigrationStrategy_run _ _ => Some MigrationRun
  | Call_SeedStrategy_run _ _ => Some SeedRun
  end.

Fixpoint phases (cs : list Call) : list Phase :=
  match cs with
  | [] => []
  | c :: rest =>
      match phase_of c with
      | Some p => p :: phases rest
      | None => phases rest
      end
  end.

Definition when {A B : Type} (o : option A) (l : list B) : list B :=
  match o with
  | Some _ => l
  | None => []
  end.

(** The phases a configuration asks for, in pipeline order. *)
Definition pipeline (config : Config) : list Phase :=
  [ServerSetup; ServerInit]
    ++ when (PluginConfig.database config) [DatabaseSetup]
    ++ when (PluginConfig.migrate config) [MigrationRun]
    ++ when (PluginConfig.seed config) [SeedRun].

Definition is_migration_call (c : Call) : bool :=
  match c with
  | Call_SqlMigrationStrategy_run _ _ => true
  | _ => false
  end.

Definition is_seed_call (c : Call) : bool :=
  match c with
  | Call_SeedStrategy_run _ _ => true
  | _ => false
  end.

(** What the caller of [setup] holds of the teardown once the promise has
    settled: the [teardown] of the instance it was fulfilled with, and
    nothing when it was rejected (a rejection carries the error alone). *)
Definition caller_teardown (o : Outcome (PluginInstance.t World Result))
  : option Teardown :=
  match result o with
  | inr instance => Some (PluginInstance.teardown instance)
  | inl _ => None
  end.

(** Every teardown of a list run front to back whatever the one before it
    answered: the exhaustive, best-effort cleanup of the spec's error
    handling design.  The world it leaves is what [#buildTeardown] is
    compared with. *)
Fixpoint run_each (ts : list Teardown) (w : World) : World :=
  match ts with
  | [] => w
  | t :: rest => run_each rest (snd (t w))
  end.

(** A teardown that changes nothing and does not throw. *)
Definition no_op (t : Teardown) : Prop :=
  forall w, t w = (inr tt, w).

(** The strategy tag of the server request, or of the migration request, is
    not a member of its enum. *)
Definition unknown_server_strategy (config : Config) : Prop :=
  exists c, PluginConfig.server config = NewServer c
            /\ ServerConfig.strategy c <> ServerStrategy_DOCKER.

Definition unknown_migration_strategy (config : Config) : Prop :=
  exists m, PluginConfig.migrate config = Some m
            /\ MigrationConfig.strategy m <> MigrationStrategy_SQL.

(** The ways a run of [setup] can go: rejected by one of its five steps, in
    the world that step left and with the calls made so far, or fulfilled
    after all five. *)
Variant setup_run (config : Config) (w : World) : Prop :=
| rejected_by_server (e : Error)
    (o1 := setupDatabaseServer (PluginConfig.server config) w)
    (H1 : result o1 = inl e)
    (Hrun : setup config w = mkOutcome (inl e) (world o1) (calls o1))
| rejected_by_init (srv : PluginInstance.t World Server) (e : Error)
    (o1 := setupDatabaseServer (PluginConfig.server config) w)
    (o2 := init (PluginInstance.output srv) (world o1))
    (H1 : result o1 = inr srv)
    (H2 : result o2 = inl e)
    (Hrun : setup config w
            = mkOutcome (inl e) (world o2) (calls o1 ++ calls o2))
| rejected_by_database (srv : PluginInstance.t World Server) (e : Error)
    (o1 := setupDatabaseServer (PluginConfig.server config) w)
    (o2 := init (PluginInstance.output srv) (world o1))
    (o3 := shouldRunDatabaseCreation config (PluginInstance.output srv)
             (world o2))
    (H1 : result o1 = inr srv)
    (H2 : result o2 = inr tt)
    (H3 : result o3 = inl e)
    (Hrun : setup config w
            = mkOutcome (inl e) (world o3) (calls o1 ++ calls o2 ++ calls o3))
| rejected_by_migration (srv : PluginInstance.t World Server)
    (db : DatabaseOutput.t World Server) (e : Error)
    (o1 := setupDatabaseServer (PluginConfig.server config) w)
    (o2 := init (PluginInstance.output srv) (world o1))
    (o3 := shouldRunDatabaseCreation config (PluginInstance.output srv)
             (world o2))
    (o4 := shouldRunMigration config (DatabaseOutput.server db) (world o3))
    (H1 : result o1 = inr srv)
    (H2 : result o2 = inr tt)
    (H3 : result o3 = inr db)
    (H4 : result o4 = inl e)
    (Hrun : setup config w
            = mkOutcome (inl e) (world o4)
                        (calls o1 ++ calls o2 ++ calls o3 ++ calls o4))
| rejected_by_seed (srv : PluginInstance.t World Server)
    (db : DatabaseOutput.t World Server)
    (migrate : MigrationOutput.t MigrationResult) (e : Error)
    (o1 := setupDatabaseServer (PluginConfig.server config) w)
    (o2 := init (PluginInstance.output srv) (world o1))
    (o3 := shouldRunDatabaseCreation config (PluginInstance.output srv)
             (world o2))
    (o4 := shouldRunMigration config (DatabaseOutput.server db) (world o3))
    (o5 := shouldRunSeed config (DatabaseOutput.server db) (world o4))
    (H1 : result o1 = inr srv)
    (H2 : result o2 = inr tt)
    (H3 : result o3 = inr db)
    (H4 : result o4 = inr migrate)
    (H5 : result o5 = inl e)
    (Hrun : setup config w
            = mkOutcome (inl e) (world o5)
                (calls o1 ++ calls o2 ++ calls o3 ++ calls o4 ++ calls o5))
| fulfilled (srv : PluginInstance.t World Server)
    (db : DatabaseOutput.t World Server)
    (migrate : MigrationOutput.t MigrationResult)
    (seed : SeedOutput.t SeedResult)
    (o1 := setupDatabaseServer (PluginConfig.server config) w)
    (o2 := init (PluginInstance.output srv) (world o1))
    (o3 := shouldRunDatabaseCreation config (PluginInstance.output srv)
             (world o2))
    (o4 := shouldRunMigration config (DatabaseOutput.server db) (world o3))
    (o5 := shouldRunSeed config (DatabaseOutput.server db) (world o4))
    (H1 : result o1 = inr srv)
    (H2 : result o2 = inr tt)
    (H3 : result o3 = inr db)
    (H4 : result o4 = inr migrate)
    (H5 : result o5 = inr seed)
    (Hrun : setup config w
            = mkOutcome
                (inr (PluginInstance.mk
                        (buildTeardown [DatabaseOutput.teardown db;
                                        PluginInstance.teardown srv])
                        (PluginResult.mk (DatabaseOutput.server db)
                                         migrate seed)))
                (world o5)
                (calls o1 ++ calls o2 ++ calls o3 ++ calls o4 ++ calls o5)).

(** An optional string that was given a non-empty value. *)
Definition given (o : option string) (s : string) : Prop :=
  o = Some s /\ s <> "".

(** An optional string that is missing or empty: what [||] replaces. *)
Definition unset (o : option string) : Prop :=
  o = None \/ o = Some "".

(** [given ?? Math.random()...]: a value that is given is taken and nothing
    is drawn; otherwise one random string is drawn from the world. *)
Definition taken_or_drawn (o : option string) (w : World) : string * World :=
  match o with
  | Some v => (v, w)
  | None => Math_random_string w
  end.

Definition draws (o : option string) : list Call :=
  match o with
  | Some _ => []
  | None => [Call_Math_random]
  end.

(** The configurations handed to the container strategy during a run. *)
Fixpoint docker_configs (cs : list Call) : list DockerServerStrategyConfig.t :=
  match cs with
  | [] => []
  | Call_DockerServerStrategy_setup c :: rest => c :: docker_configs rest
  | _ :: rest => docker_configs rest
  end.

(** ** The spec's sentences that the code is compared with *)

(** Failure containment as the spec words it: when the steps before the
    migration are fulfilled and the migration throws, [setup] rejects with
    that error and the caller still holds a teardown to invoke. *)
Definition teardown_reaches_caller (config : Config) (w : World) : Prop :=
  forall srv db e,
    let o1 := setupDatabaseServer (PluginConfig.server config) w in
    let o2 := init (PluginInstance.output srv) (world o1) in
    let o3 :=
      shouldRunDatabaseCreation config (PluginInstance.output srv) (world o2) in
    let o4 := shouldRunMigration config (DatabaseOutput.server db) (world o3) in
    result o1 = inr srv ->
    result o2 = inr tt ->
    result o3 = inr db ->
    result o4 = inl e ->
    result (setup config w) = inl e
    /\ exists t, caller_teardown (setup config w) = Some t.

(** Exhaustive teardown as the spec words it: the composite leaves the world
    in which every action has been run, also after one of them threw. *)
Definition runs_every_teardown (ts : list Teardown) (w : World) : Prop :=
  snd (buildTeardown ts w) = run_each ts w.

(** "Every field that is specified is used as given", over the fields that
    have a counterpart in the container strategy's configuration. *)
Definition specified_fields_used_as_given
  (c : ServerConfig.t) (dc : DockerServerStrategyConfig.t) : Prop :=
  (forall n, ServerConfig.port c = Some n ->
             DockerServerStrategyConfig.port dc = n)
  /\ (forall v, ServerConfig.user c = Some v ->
                DockerServerStrategyConfig.user dc = v)
  /\ (forall v, ServerConfig.password c = Some v ->
                DockerServerStrategyConfig.password dc = v)
  /\ (forall v, ServerConfig.databaseName c = Some v ->
                DockerServerStrategyConfig.database dc = v)
  /\ (forall v, ServerConfig.version c = Some v ->
                DockerServerStrategyConfig.version dc = v).

(** The adoption case as the spec words it, for every configuration with
    an existing server: the result's server is the supplied one and the
    teardown is a no-op. *)
Definition adoption_keeps_supplied_server (config : Config) (w : World)
  : Prop :=
  forall s instance,
    PluginConfig.server config = ExistingServer s ->
    result (setup config w) = inr instance ->
    PluginResult.server (PluginInstance.output instance) = s
    /\ no_op (PluginInstance.teardown instance).

(** Modelled from the spec: [ConnectionStrategy] lives in
    [server_connection.ts], which is not among the sources.  The spec has the
    adoption case wrap the supplied server without side effects and give a
    no-op teardown, since the caller owns a server it supplied itself. *)
Definition ConnectionStrategy_setup_model (server : Server)
  : Promise World (PluginInstance.t World Server) :=
  fun w => (inr (PluginInstance.mk Promise_resolve server), w).

Definition ConnectionStrategy_as_specified : Prop :=
  forall server w,
    ConnectionStrategy_setup server w = ConnectionStrategy_setup_model server w.

End Plugin.

Arguments mkOutcome {X A} _ _ _.
Arguments result {X A} _.
Arguments world {X A} _.
Arguments calls {X A} _.

(** * Stub collaborators

    Test doubles that write what they do to a journal, in the manner of the
    stub collaborators the spec's testable properties ask for.  They are the
    concrete inputs of the scenarios below; the general theorems hold for
    every [Externals]. *)
Module Stub.

(** A server as the doc comment of plugin.ts builds one:
    [new Server(id, { serverName, hostname, port, user, password, database })]. *)
Record StubServer : Type := mkServer {
  id : string;
  serverName : string;
  hostname : string;
  port : Z;
  user : string;
  password : string;
  database : string
}.

(** The external world: the strings the random source will hand out next,
    and the journal of what was done to containers and databases. *)
Record StubWorld : Type := mkWorld {
  entropy : list string;
  journal : list string
}.

Definition note (line : string) (w : StubWorld) : StubWorld :=
  mkWorld (entropy w) (journal w ++ [line]).

Definition random (w : StubWorld) : string * StubWorld :=
  match entropy w with
  | s :: rest => (s, mkWorld rest (journal w))
  | [] => ("x", w)
  end.

(** [database: { prefix: "custom" }] *)
Record StubDatabaseConfig : Type := mkDatabaseConfig { prefix : string }.

Definition init (server : StubServer) : Promise StubWorld unit :=
  fun w => (inr tt, note ("connect " ++ serverName server ++ "/"
                            ++ database server) w).

(** Modelled from the spec: the adoption case of [server_connection.ts],
    which wraps the supplied server and gives a no-op teardown. *)
Definition connection_setup (server : StubServer)
  : Promise StubWorld (PluginInstance.t StubWorld StubServer) :=
  fun w => (inr (PluginInstance.mk Promise_resolve server), w).

(** The container strategy: starts a container named after the server; its
    teardown stops it. *)
Definition docker_setup (c : DockerServerStrategyConfig.t)
  : Promise StubWorld (PluginInstance.t StubWorld StubServer) :=
  fun w =>
    let name := DockerServerStrategyConfig.serverName c in
    (inr (PluginInstance.mk
            (fun w' => (inr tt, note ("stop " ++ name) w'))
            (mkServer name name "localhost"
                      (DockerServerStrategyConfig.port c)
                      (DockerServerStrategyConfig.user c)
                      (DockerServerStrategyConfig.password c)
                      (DockerServerStrategyConfig.database c))),
     note ("start " ++ name ++ " postgres:"
             ++ DockerServerStrategyConfig.version c) w).

(** Modelled from the spec: the database phase of [database.ts] creates a
    fresh logical database and returns a handle bound to it plus a teardown
    that drops it.  A database whose prefix is [locked] cannot be dropped:
    its teardown throws. *)
Definition database_run (c : StubDatabaseConfig) (server : StubServer)
  : Promise StubWorld (DatabaseOutput.t StubWorld StubServer) :=
  fun w =>
    let name := prefix c ++ "-db" in
    (inr (DatabaseOutput.mk
            (mkServer (id server) (serverName server) (hostname server)
                      (port server) (user server) (password server) name)
            (fun w' =>
               if String.eqb (prefix c) "locked"
               then (inl (mkError "database is being accessed by other users"),
                     w')
               else (inr tt, note ("drop database " ++ name) w'))),
     note ("create database " ++ name ++ " on " ++ serverName server) w).

(** The SQL migration strategy over a directory of two files; under the
    root [broken] the second file fails after the first was applied. *)
Definition migration_run (c : MigrationConfig.t) (conn : string)
  : Promise StubWorld (MigrationOutput.t string) :=
  fun w =>
    let w1 := note ("apply 001_users.sql to " ++ conn) w in
    if String.eqb (MigrationConfig.root c) "broken"
    then (inl (mkError "002_posts.sql: syntax error"), w1)
    else (inr (MigrationOutput.mk ["001_users.sql"; "002_posts.sql"]),
          note ("apply 002_posts.sql to " ++ conn) w1).

(** The seed strategy: one journal line and one result per table, in the
    order given. *)
Definition seed_run (c : list (string * nat)) (conn : string)
  : Promise StubWorld (SeedOutput.t string) :=
  fun w =>
    (inr (SeedOutput.mk (map fst c)),
     mkWorld (entropy w)
             (journal w ++ map (fun t => "insert into " ++ fst t) c)).

Definition externals : Externals := {|
  World := StubWorld;
  Server := StubServer;
  Connection := string;
  DatabaseConfig := StubDatabaseConfig;
  SeedConfig := list (string * nat);
  MigrationResult := string;
  SeedResult := string;
  ServerStrategy_DOCKER := "DOCKER";
  MigrationStrategy_SQL := "SQL";
  connection := fun server => serverName server ++ "/" ++ database server;
  Math_random_string := random;
  Server_init := init;
  ConnectionStrategy_setup := connection_setup;
  DockerServerStrategy_setup := docker_setup;
  DatabaseStrategy_run := database_run;
  SqlMigrationStrategy_run := migration_run;
  SeedStrategy_run := seed_run
|}.

(** ** Scenario inputs *)

Definition fresh : @World externals := mkWorld ["k3x9"; "u7qa"; "p5zz"] [].

(** [{ strategy: ServerStrategy.DOCKER }] *)
Definition docker : ServerConfig.t :=
  ServerConfig.mk "DOCKER" None None None None None None None.

(** The server of the doc comment's "Existing server setup". *)
Definition existing : StubServer :=
  mkServer "id" "serverName" "hostname" 1234 "user" "password" "database".

Definition config (server : ServerOrConfig StubServer)
  (database : option StubDatabaseConfig) (migrate : option MigrationConfig.t)
  (seed : option (list (string * nat))) : @Config externals :=
  PluginConfig.mk server database migrate seed.

Definition sql (root : string) : MigrationConfig.t :=
  MigrationConfig.mk "SQL" root.

Definition custom : option StubDatabaseConfig :=
  Some (mkDatabaseConfig "custom").

Definition users : option (list (string * nat)) :=
  Some [("User", 2%nat); ("Post", 1%nat)].

(** New container, custom database, migrations and seeding. *)
Definition full : @Config externals :=
  config (NewServer docker) custom (Some (sql "migrations")) users.

(** The same with a migration directory whose second file fails. *)
Definition broken : @Config externals :=
  config (NewServer docker) custom (Some (sql "broken")) users.

(** A database that cannot be dropped. *)
Definition locked : @Config externals :=
  config (NewServer docker) (Some (mkDatabaseConfig "locked")) None None.

(** [{ server }] with an existing server, and the same with a database. *)
Definition adopt : @Config externals :=
  config (ExistingServer existing) None None None.

Definition adopt_custom : @Config externals :=
  config (ExistingServer existing) custom None None.

(** Strategy tags outside the enums. *)
Definition podman : @Config externals :=
  config (NewServer (ServerConfig.mk "PODMAN" None None None None None None
                                     None))
         None None None.

Definition knex : @Config externals :=
  config (NewServer docker) None (Some (MigrationConfig.mk "KNEX" "migrations"))
         users.

(** [{ strategy: DOCKER, databaseName: "" }] *)
Definition unnamed : ServerConfig.t :=
  ServerConfig.mk "DOCKER" None None None (Some "") None None None.

(** Release actions: stopping a container, and a drop that throws. *)
Definition stop (name : string) : @Teardown externals :=
  fun w => (inr tt, note ("stop " ++ name) w).

Definition drop_fails : @Teardown externals :=
  fun w => (inl (mkError "drop failed"), w).

Definition failing_then_stop : list (@Teardown externals) :=
  [drop_fails; stop "postgres-k3x9"].

End Stub.

(** * Further vocabulary for the plugin *)

Section PluginCalls.

Context {X : Externals}.

(** How many times a run called [Math.random()]. *)
Fixpoint random_draws (cs : list Call) : nat :=
  match cs with
  | [] => 0
  | Call_Math_random :: rest => S (random_draws rest)
  | _ :: rest => random_draws rest
  end.

(** 1 for a field that is not given, 0 for one that is. *)
Definition missing {A : Type} (o : option A) : nat :=
  match o with
  | Some _ => 0
  | None => 1
  end.

(** [await a(); await b()]: [b] is started once [a] is fulfilled, in the
    world [a] left. *)
Definition and_then (a b : Teardown) : Teardown :=
  fun w =>
    match a w with
    | (inr _, w1) => b w1
    | (inl e, w1) => (inl e, w1)
    end.

End PluginCalls.

(** A second set of stub collaborators: the server never becomes ready, so
    the readiness handshake rejects. *)
Module Unreachable.

Definition init (server : Stub.StubServer) : Promise Stub.StubWorld unit :=
  fun w =>
    (inl (mkError "connection refused"),
     Stub.note ("connect " ++ Stub.serverName server ++ "/"
                  ++ Stub.database server) w).

Definition externals : Externals := {|
  World := Stub.StubWorld;
  Server := Stub.StubServer;
  Connection := string;
  DatabaseConfig := Stub.StubDatabaseConfig;
  SeedConfig := list (string * nat);
  MigrationResult := string;
  SeedResult := string;
  ServerStrategy_DOCKER := "DOCKER";
  MigrationStrategy_SQL := "SQL";
  connection :=
    fun server => Stub.serverName server ++ "/" ++ Stub.database server;
  Math_random_string := Stub.random;
  Server_init := init;
  ConnectionStrategy_setup := Stub.connection_setup;
  DockerServerStrategy_setup := Stub.docker_setup;
  DatabaseStrategy_run := Stub.database_run;
  SqlMigrationStrategy_run := Stub.migration_run;
  SeedStrategy_run := Stub.seed_run
|}.

Definition fresh : @World externals :=
  Stub.mkWorld ["k3x9"; "u7qa"; "p5zz"] [].

(** New container with migrations. *)
Definition config : @Config externals :=
  PluginConfig.mk (NewServer Stub.docker) None
                  (Some (Stub.sql "migrations")) None.

End Unreachable.

(** * The deprecation check

    The script that walks the repository's sources, reads the JSDoc tags of
    every documented symbol and checks each [@deprecated] tag: the tag must
    say when the symbol goes, either [(will be removed after X.Y.Z)] or
    [(will be removed in X.Y.Z)], and an [in] version must still lie ahead of
    the current [VERSION].  Given [--fail-fast] it exits at the first
    error. *)
Module Deprecation.

(** ** The two message formats *)

(** [\d] *)
Definition is_digit (c : ascii) : bool :=
  match c with
  | "0" | "1" | "2" | "3" | "4" | "5" | "6" | "7" | "8" | "9" => true
  | _ => false
  end%char.

(** The longest run of digits a string starts with, and what follows. *)
Fixpoint span_digits (s : string) : string * string :=
  match s with
  | String c rest =>
      if is_digit c
      then let r := span_digits rest in (String c (fst r), snd r)
      else ("", s)
  | EmptyString => ("", "")
  end.

(** [\d+] followed by the character [c].  A greedy run of digits followed by
    a character that is no digit matches in one way only: all the digits,
    then [c]. *)
Definition digits_then (c : ascii) (s : string) : option (string * string) :=
  match span_digits s with
  | (String d ds, String c' rest) =>
      if Ascii.eqb c' c then Some (String d ds, rest) else None
  | _ => None
  end.

(** A literal prefix at the start of the string ([^]). *)
Fixpoint strip_prefix (p s : string) : option string :=
  match p, s with
  | EmptyString, _ => Some s
  | String a p', String b s' =>
      if Ascii.eqb a b then strip_prefix p' s' else None
  | String _ _, EmptyString => None
  end.

(** [/^<opening>(?<version>\d+\.\d+\.\d+)\)/.exec(message)?.groups.version]:
    the version named by a message that starts with [opening], three runs of
    digits separated by dots, and a closing parenthesis. *)
Definition exec_version (opening message : string) : option string :=
  match strip_prefix opening message with
  | None => None
  | Some r0 =>
      match digits_then "." r0 with
      | None => None
      | Some (major, r1) =>
          match digits_then "." r1 with
          | None => None
          | Some (minor, r2) =>
              match digits_then ")" r2 with
              | None => None
              | Some (patch, _) => Some (major ++ "." ++ minor ++ "." ++ patch)
              end
          end
      end
  end.

(** [DEPRECATION_IN_FORMAT_REGEX] (lines 29-30) *)
Definition DEPRECATION_IN_FORMAT_REGEX : string -> option string :=
  exec_version "(will be removed in ".

(** [DEPRECATION_AFTER_FORMAT_REGEX] (lines 31-32) *)
Definition DEPRECATION_AFTER_FORMAT_REGEX : string -> option string :=
  exec_version "(will be removed after ".

(** A string of digits, as [\d+] matches one. *)
Fixpoint all_digits (s : string) : bool :=
  match s with
  | EmptyString => true
  | String c rest => is_digit c && all_digits rest
  end.

Definition number (s : string) : Prop :=
  s <> "" /\ all_digits s = true.

(** ** What the script reads and writes *)

(** A JSDoc tag: its kind and, for [@deprecated], the text after it. *)
Record Tag : Type := mkTag {
  kind : string;
  doc : option string
}.

(** A documented symbol [d]: [d.jsDoc?.tags] and [d.location.line]. *)
Record DocNode : Type := mkDocNode {
  tags : option (list Tag);
  line : N
}.

(** A file [walk] yields, with what [doc(url.href)] settles with. *)
Record File : Type := mkFile {
  path : string;
  docs : Error + list DocNode
}.

(** A line on the console: [console.error(...)] or [console.warn(...)] with
    its arguments. *)
Inductive Stream : Type :=
| Console_error
| Console_warn.

Record Line : Type := mkLine {
  stream : Stream;
  args : list string
}.

(** How the script, or a part of it, comes to an end before its last
    statement: [Deno.exit(code)] or an uncaught exception; and how the whole
    script ends. *)
Inductive Ended : Type :=
| Exit (code : Z)
| Uncaught (e : Error).

Inductive Ending : Type :=
| Completed
| Stopped (how : Ended).

(** [let shouldFail], and the console so far. *)
Record State : Type := mkState {
  shouldFail : bool;
  console : list Line
}.

(** The semver library, the current version and the text colours, all from
    outside this script. *)
Class Host : Type := {
  SemVer : Type;
  (** [semver.parse], which throws on a string that is no version *)
  semver_parse : string -> Error + SemVer;
  semver_lt : SemVer -> SemVer -> bool;
  semver_gt : SemVer -> SemVer -> bool;
  (** [VERSION], from [../version.ts] *)
  VERSION : string;
  (** [DEPRECATION_IN_FORMAT] (lines 37-43), built by [semver.increment] *)
  DEPRECATION_IN_FORMAT : string;
  (** [colors.red], [colors.bold], [colors.yellow] *)
  red : string -> string;
  bold : string -> string;
  yellow : string -> string
}.

(** [for (const x of xs) { body }], where the body may leave the script. *)
Fixpoint each {A : Type} (body : A -> State -> option Ended * State)
  (xs : list A) (s : State) : option Ended * State :=
  match xs with
  | [] => (None, s)
  | x :: rest =>
      match body x s with
      | (None, s') => each body rest s'
      | (Some ended, s') => (Some ended, s')
      end
  end.

Section Script.

Context {H : Host}.

(** The command line has [--fail-fast]. *)
Variable FAIL_FAST : bool.

Definition console_error (text : list string) (s : State) : State :=
  mkState (shouldFail s) (console s ++ [mkLine Console_error text]).

Definition console_warn (text : list string) (s : State) : State :=
  mkState (shouldFail s) (console s ++ [mkLine Console_warn text]).

(** [shouldFail = true] *)
Definition fail (s : State) : State := mkState true (console s).

(** [`${path}:${d.location.line}`] *)
Definition location (path : string) (d : DocNode) : string :=
  path ++ ":" ++ NilZero.string_of_uint (N.to_uint (line d)).

(** [semver.lt(semver.parse(a), semver.parse(VERSION))] and the like: both
    arguments are parsed, the left one first. *)
Definition compare_with_VERSION (test : SemVer -> SemVer -> bool)
  (version : string) : Error + bool :=
  match semver_parse version with
  | inl e => inl e
  | inr v =>
      match semver_parse VERSION with
      | inl e => inl e
      | inr current => inr (test v current)
      end
  end.

(** The body of the innermost loop, lines 62-121. *)
Definition check_tag (path : string) (d : DocNode) (tag : Tag) (s : State)
  : option Ended * State :=
  if String.eqb (kind tag) "deprecated" then
    match doc tag with
    | None | Some EmptyString =>
        let s1 :=
          console_error
            [red "Error";
             bold "@deprecated" ++ " tag must have a version: "
               ++ location path d] s in
        let s2 := fail s1 in
        if FAIL_FAST then (Some (Exit 1), s2) else (None, s2)
    | Some message =>
        match DEPRECATION_AFTER_FORMAT_REGEX message with
        | Some afterVersion =>
            match compare_with_VERSION semver_lt afterVersion with
            | inl e => (Some (Uncaught e), s)
            | inr true =>
                (None,
                 console_warn
                   [yellow "Warn";
                    bold "@deprecated"
                      ++ " tag is expired and export should be removed: "
                      ++ location path d] s)
            | inr false => (None, s)
            end
        | None =>
            match DEPRECATION_IN_FORMAT_REGEX message with
            | None =>
                let s1 :=
                  console_error
                    [red "Error";
                     bold "@deprecated"
                       ++ " tag version is missing. Append '"
                       ++ DEPRECATION_IN_FORMAT
                       ++ "' after @deprecated tag: " ++ location path d] s in
                let s2 := fail s1 in
                if FAIL_FAST then (Some (Exit 1), s2) else (None, s2)
            | Some inVersion =>
                match compare_with_VERSION semver_gt inVersion with
                | inl e => (Some (Uncaught e), s)
                | inr false =>
                    let s1 :=
                      console_error
                        [red "Error";
                         bold "@deprecated"
                           ++ " tag is expired and export must be removed: "
                           ++ location path d] s in
                    if FAIL_FAST then (Some (Exit 1), s1) else (None, fail s1)
                | inr true => (None, s)
                end
            end
        end
    end
  else (None, s).

(** Lines 58-124: the tags of one documented symbol, when it has any. *)
Definition check_doc (path : string) (d : DocNode) (s : State)
  : option Ended * State :=
  match tags d with
  | Some ts => each (check_tag path d) ts s
  | None => (None, s)
  end.

(** Lines 52-124: one file; a [doc] that rejects ends the script. *)
Definition check_file (f : File) (s : State) : option Ended * State :=
  match docs f with
  | inl e => (Some (Uncaught e), s)
  | inr ds => each (check_doc (path f)) ds s
  end.

(** The whole script, lines 34-127, over the files [walk] yields. *)
Definition main (files : list File) : Ending * list Line :=
  match each check_file files (mkState false []) with
  | (Some ended, s) => (Stopped ended, console s)
  | (None, s) =>
      if shouldFail s then (Stopped (Exit 1), console s)
      else (Completed, console s)
  end.

End Script.

(** ** Vocabulary of the properties *)

Definition is_error (l : Line) : bool :=
  match stream l with
  | Console_error => true
  | Console_warn => false
  end.

(** [xs] is an initial part of [ys]. *)
Definition starts (xs ys : list Line) : Prop :=
  exists rest, ys = (xs ++ rest)%list.

(** A tag the check has nothing against whatever the versions: one of another
    kind, or a [@deprecated] in the [after] format. *)
Definition after_format (t : Tag) : Prop :=
  kind t <> "deprecated"
  \/ exists message version,
       doc t = Some message
       /\ message <> ""
       /\ DEPRECATION_AFTER_FORMAT_REGEX message = Some version.

(** Every tag of every documented symbol of every file satisfies [P]. *)
Definition every_tag (P : Tag -> Prop) (files : list File) : Prop :=
  forall f ds d ts t,
    In f files -> docs f = inr ds -> In d ds -> tags d = Some ts -> In t ts ->
    P t.

(** [shouldFail] is set exactly when an error was written. *)
Definition consistent (s : State) : Prop :=
  shouldFail s = existsb is_error (console s).

Definition exits_after_error (ended : Ended) (s : State) : Prop :=
  match ended with
  | Exit code => code = 1%Z /\ existsb is_error (console s) = true
  | Uncaught _ => True
  end.

(** A part of the run without [--fail-fast] after an error: it goes on with
    [shouldFail] set, or ends in an uncaught exception; it never calls
    [Deno.exit] itself. *)
Definition failing (x : option Ended * State) : Prop :=
  match fst x with
  | None => shouldFail (snd x) = true
  | Some (Exit _) => False
  | Some (Uncaught _) => True
  end.

(** A part of the run with [--fail-fast] ([x1]) beside the same part without
    it ([x0]), both started in one state with no error yet: either no error
    came up and they are the same, or the first error ended [x1] with
    [Deno.exit(1)] while [x0] went on, [failing]. *)
Definition agree (x1 x0 : option Ended * State) : Prop :=
  (x1 = x0
   /\ match fst x1 with
      | None => shouldFail (snd x1) = false
      | Some (Exit _) => False
      | Some (Uncaught _) => True
      end)
  \/ (fst x1 = Some (Exit 1)
      /\ starts (console (snd x1)) (console (snd x0))
      /\ failing x0).

(** A [@deprecated] tag the check writes an error for: it has no text, or
    its text is in neither format, or it is in the [in] format with a version
    that is not ahead of [VERSION]. *)
Definition rejected {H : Host} (t : Tag) : Prop :=
  kind t = "deprecated"
  /\ (doc t = None
      \/ doc t = Some ""
      \/ exists message,
           doc t = Some message
           /\ message <> ""
           /\ DEPRECATION_AFTER_FORMAT_REGEX message = None
           /\ (DEPRECATION_IN_FORMAT_REGEX message = None
               \/ exists version,
                    DEPRECATION_IN_FORMAT_REGEX message = Some version
                    /\ compare_with_VERSION semver_gt version = inr false)).

(** No error so far. *)
Definition clean (s : State) : Prop :=
  shouldFail s = false /\ existsb is_error (console s) = false.

Definition never_exits (ended : Ended) (s : State) : Prop :=
  (forall code, ended <> Exit code)
  /\ existsb is_error (console s) = false.

(** A part of the run that does not go on without [shouldFail] set. *)
Definition flagged (x : option Ended * State) : Prop :=
  match fst x with
  | None => shouldFail (snd x) = true
  | Some _ => True
  end.

(** Some tag of some documented symbol of some file satisfies [P]. *)
Definition some_tag (P : Tag -> Prop) (files : list File) : Prop :=
  exists f ds d ts t,
    In f files /\ docs f = inr ds /\ In d ds /\ tags d = Some ts /\ In t ts
    /\ P t.

(** A tag in the [after] format at which the comparison with [VERSION]
    throws [e]: [semver.parse] refused the tag's version, or [VERSION]. *)
Definition throwing {H : Host} (e : Error) (t : Tag) : Prop :=
  kind t = "deprecated"
  /\ exists message version,
       doc t = Some message
       /\ DEPRECATION_AFTER_FORMAT_REGEX message = Some version
       /\ compare_with_VERSION semver_lt version = inl e.

(** What a run over tags in the [after] format can throw: the rejection of
    [doc] for a file, or what [semver.parse] threw at a tag. *)
Definition thrown {H : Host} (files : list File) (e : Error) : Prop :=
  (exists f, In f files /\ docs f = inl e)
  \/ some_tag (throwing e) files.

(** ** A stub host: versions compared as strings *)

Definition stub : Host := {|
  SemVer := string;
  semver_parse :=
    fun s => if String.eqb s "" then inl (mkError "Invalid") else inr s;
  semver_lt := String.ltb;
  semver_gt := fun a b => String.ltb b a;
  VERSION := "0.5.0";
  DEPRECATION_IN_FORMAT := "(will be removed in 0.8.0)";
  red := fun s => s;
  bold := fun s => s;
  yellow := fun s => s
|}.

(** Two files: an expired [after] tag, then a tag with no version and an
    expired [in] tag. *)
Definition sample : list File :=
  [ mkFile "a.ts"
      (inr [mkDocNode
              (Some [mkTag "param" None;
                     mkTag "deprecated"
                           (Some "(will be removed after 0.4.0) Use b.")])
              3%N]);
    mkFile "b.ts"
      (inr [mkDocNode None 1%N;
            mkDocNode (Some [mkTag "deprecated" None]) 10%N;
            mkDocNode
              (Some [mkTag "deprecated"
                           (Some "(will be removed in 0.5.0) Use c.")])
              20%N]) ].

(** One file whose only [@deprecated] tag is in the [after] format, and
    expired. *)
Definition tidy : list File :=
  [ mkFile "a.ts"
      (inr [mkDocNode
              (Some [mkTag "param" None;
                     mkTag "deprecated"
                           (Some "(will be removed after 0.4.0) Use b.")])
              3%N]) ].

(** A host whose [semver.parse] refuses a number with a leading zero, which
    [\d+] lets through. *)
Definition strict : Host := {|
  SemVer := string;
  semver_parse :=
    fun s =>
      match s with
      | String "0" (String c _) =>
          if is_digit c then inl (mkError ("Invalid Version: " ++ s))
          else inr s
      | _ => inr s
      end;
  semver_lt := String.ltb;
  semver_gt := fun a b => String.ltb b a;
  VERSION := "0.5.0";
  DEPRECATION_IN_FORMAT := "(will be removed in 0.8.0)";
  red := fun s => s;
  bold := fun s => s;
  yellow := fun s => s
|}.

(** One file whose only tag is in the [after] format, with a version that is
    no semantic version. *)
Definition padded : list File :=
  [ mkFile "a.ts"
      (inr [mkDocNode
              (Some [mkTag "deprecated"
                           (Some "(will be removed after 01.2.3)")])
              3%N]) ].

End Deprecation.

(** * The npm build script

    The script that turns the repository into npm packages: it empties
    [./npm], selects the packages to build (all of them, or the one named on
    the command line), builds each selected package with [dnt] (a test build
    first unless the package opts out, then the build that is published),
    adds the mapped packages to the [dependencies] of the generated
    [package.json], and at the end removes every package's [node_modules]
    from the output. *)
Module BuildNpm.

(** ** Objects with string values *)

(** A [Record<string, string>] as its entries in order.  (JavaScript lists
    keys that look like array indices first; the keys here are package names
    and URLs.) *)
Definition Obj : Type := list (string * string).


(** [o[k] = v]: an existing key keeps its place. *)
Fixpoint obj_set (k v : string) (o : Obj) : Obj :=
  match o with
  | [] => [(k, v)]
  | (k', v') :: rest =>
      if String.eqb k' k then (k', v) :: rest
      else (k', v') :: obj_set k v rest
  end.

(** [{ ...into, ...from }], given the object built so far. *)
Definition spread (from into : Obj) : Obj :=
  fold_left (fun acc kv => obj_set (fst kv) (snd kv) acc) from into.

(** ** Packages *)

(** A value of [SpecifierMappings]: a specifier, or a mapped package of
    which the script reads the name and the version. *)
Inductive Mapping : Type :=
| Specifier (specifier : string)
| PackageMapped (name : string) (version : option string).

(** [interface Package] (lines 144-151) *)
Module Package.
Record t : Type := mk {
  name : string;
  description : string;
  dir : string;
  tags : list string;
  test : option bool;
  mappings : option (list (string * Mapping))
}.
End Package.

(** The part of [package.json] the script fills in per package (author,
    license, repository, bugs, homepage and engines are constants). *)
Module PackageJson.
Record t : Type := mk {
  name : string;
  version : string;
  description : string;
  keywords : list string
}.
End PackageJson.

(** [BuildOptions] as the script sets them; [shims], [testPattern] and
    [packageManager] are constants and [postBuild] is a callback that [build]
    runs. *)
Module BuildOptions.
Record t : Type := mk {
  entryPoints : list string;
  outDir : string;
  rootTestDir : string;
  mappings : option Obj;
  package : PackageJson.t;
  test : bool;
  typeCheck : option bool;
  importMap : option string
}.
End BuildOptions.

(** What the script asks of Deno and of [dnt]. *)
Inductive Op : Type :=
| Op_emptyDir (dir : string)
| Op_chdir (dir : string)
| Op_remove (path : string)
| Op_build (options : BuildOptions.t)
| Op_readTextFile (path : string)
| Op_writeTextFile (path text : string).

(** Everything the script takes from outside. *)
Class Host : Type := {
  Disk : Type;
  Json : Type;
  (** a number among the positional arguments, as [parse] gives it: whether
      it is truthy, and its text in a template literal *)
  Num : Type;
  num_truthy : Num -> bool;
  num_text : Num -> string;
  (** [join] of [std/path] *)
  join : list string -> string;
  (** [rootDir], the parent of the script's directory *)
  rootDir : string;
  (** [VERSION] and [parseSemver(VERSION).major] as text *)
  VERSION : string;
  VERSION_major : string;
  emptyDir : string -> Promise Disk unit;
  Deno_chdir : string -> Promise Disk unit;
  (** [Deno.remove(path, { recursive: true })] *)
  Deno_remove : string -> Promise Disk unit;
  build : BuildOptions.t -> Promise Disk unit;
  Deno_readTextFile : string -> Promise Disk string;
  Deno_writeTextFile : string -> string -> Promise Disk unit;
  JSON_parse : string -> Error + Json;
  (** [JSON.stringify(packageJson, null, 2)] *)
  JSON_stringify : Json -> string;
  (** [packageJson.dependencies], read and assigned *)
  dependencies : Json -> option Obj;
  set_dependencies : Obj -> Json -> Json
}.

(** The first positional argument, [parse(Deno.args)._[0]]. *)
Inductive Positional {H : Host} : Type :=
| Text (s : string)
| Number (n : Num).

Section Script.

Context {H : Host}.

(** ** The script's monad: the disk, the first rejection, the operations *)

Record Outcome (A : Type) : Type := mkOutcome {
  settled : Error + A;
  disk : Disk;
  ops : list Op
}.
Arguments mkOutcome {A} _ _ _.
Arguments settled {A} _.
Arguments disk {A} _.
Arguments ops {A} _.

Definition Script (A : Type) : Type := Disk -> Outcome A.

Definition pure {A : Type} (a : A) : Script A :=
  fun w => mkOutcome (inr a) w [].

Definition raise {A : Type} (e : Error) : Script A :=
  fun w => mkOutcome (inl e) w [].

Definition seq {A B : Type} (m : Script A) (k : A -> Script B) : Script B :=
  fun w =>
    let o := m w in
    match settled o with
    | inl e => mkOutcome (inl e) (disk o) (ops o)
    | inr a =>
        let o' := k a (disk o) in
        mkOutcome (settled o') (disk o') (ops o ++ ops o')
    end.

Definition perform {A : Type} (op : Op) (p : Promise Disk A) : Script A :=
  fun w => let r := p w in mkOutcome (fst r) (snd r) [op].

Notation "x <- m ;; k" := (seq m (fun x => k))
  (at level 100, m at next level, right associativity).

(** [for (const x of xs) { await body(x) }] *)
Fixpoint for_each {A : Type} (body : A -> Script unit) (xs : list A)
  : Script unit :=
  match xs with
  | [] => pure tt
  | x :: rest => _ <- body x ;; for_each body rest
  end.

(** ** The table of packages (lines 153-175) *)

Definition packages : list Package.t :=
  [ Package.mk "@nifty-lil-tricks/testing"
      "A selection of useful utilities (or nifty li'l tricks!) for all things testing"
      rootDir [] None None;
    Package.mk "@nifty-lil-tricks/testing-plugin-postgresql"
      "A nifty li'l plugin for setting up PostgreSQL database instances when testing"
      (join [rootDir; "plugin_postgresql"]) ["postgresql"] (Some false)
      (Some [("https://deno.land/x/nifty_lil_tricks_testing@__VERSION__/mod.ts",
              PackageMapped "@nifty-lil-tricks/testing"
                            (Some ("^" ++ VERSION_major ++ ".0.0")))]) ].

(** ** Selection (lines 177-183) *)

(** [if (pkgToBuild)] *)
Definition truthy (pkgToBuild : option Positional) : bool :=
  match pkgToBuild with
  | None => false
  | Some (Text s) => negb (String.eqb s "")
  | Some (Number n) => num_truthy n
  end.

(** [pkg.name === pkgToBuild]: a number is no package's name. *)
Definition named (pkgToBuild : Positional) (pkg : Package.t) : bool :=
  match pkgToBuild with
  | Text s => String.eqb (Package.name pkg) s
  | Number _ => false
  end.

(** [`${pkgToBuild}`] *)
Definition text_of (pkgToBuild : Positional) : string :=
  match pkgToBuild with
  | Text s => s
  | Number n => num_text n
  end.

Definition select (table : list Package.t) (pkgToBuild : option Positional)
  : Error + list Package.t :=
  match pkgToBuild with
  | Some p =>
      if truthy pkgToBuild then
        match filter (named p) table with
        | [] => inl (mkError ("Could not find package " ++ text_of p))
        | filteredPackages => inr filteredPackages
        end
      else inr table
  | None => inr table
  end.

(** ** Mappings and dependencies *)

(** [pkg.mappings ?? {}] *)
Definition entries (pkg : Package.t) : list (string * Mapping) :=
  match Package.mappings pkg with
  | Some m => m
  | None => []
  end.

(** Lines 197-204: the [mappings] handed to the published build. *)
Definition mappings_of (pkg : Package.t) : Obj :=
  fold_left
    (fun acc entry =>
       obj_set (fst entry)
               (match snd entry with
                | Specifier s => s
                | PackageMapped n _ => n
                end)
               acc)
    (entries pkg) [].

(** Lines 287-292: [deps[mapping.name] = mapping.version] for every mapped
    package with a truthy version. *)
Definition deps_of (pkg : Package.t) : Obj :=
  fold_left
    (fun deps entry =>
       match snd entry with
       | PackageMapped n (Some v) =>
           if String.eqb v "" then deps else obj_set n v deps
       | _ => deps
       end)
    (entries pkg) [].

(** Lines 293-296: [{ ...packageJson.dependencies, ...deps }] *)
Definition merged_dependencies (pkg : Package.t) (existing : option Obj)
  : Obj :=
  spread (deps_of pkg)
         (spread (match existing with Some o => o | None => [] end) []).

(** ** The steps of the script *)

(** [rmBuildDir] (lines 185-191): whatever [Deno.remove] answers is
    swallowed. *)
Definition rmBuildDir (dir : string) : Script unit :=
  fun w =>
    let o := perform (Op_remove dir) (Deno_remove dir) w in
    mkOutcome (inr tt) (disk o) (ops o).

(** [adjustPackageJson] (lines 283-298) *)
Definition adjustPackageJson (pkg : Package.t) (outDir : string)
  : Script unit :=
  let path := join [outDir; "package.json"] in
  rawPackageJson <- perform (Op_readTextFile path) (Deno_readTextFile path) ;;
  match JSON_parse rawPackageJson with
  | inl e => raise e
  | inr packageJson =>
      let adjusted :=
        set_dependencies
          (merged_dependencies pkg (dependencies packageJson)) packageJson in
      perform (Op_writeTextFile path (JSON_stringify adjusted))
              (Deno_writeTextFile path (JSON_stringify adjusted))
  end.

(** [join(rootDir, "./npm", pkg.name)] *)
Definition outDir_of (pkg : Package.t) : string :=
  join [rootDir; "./npm"; Package.name pkg].

(** [options] (lines 205-255) *)
Definition options_of (pkg : Package.t) : BuildOptions.t :=
  BuildOptions.mk
    [join [Package.dir pkg; "./mod.ts"]]
    (outDir_of pkg)
    (Package.dir pkg)
    (Some (mappings_of pkg))
    (PackageJson.mk (Package.name pkg) VERSION (Package.description pkg)
                    ("testing" :: "deno" :: "nodejs" :: Package.tags pkg))
    false None None.

(** Lines 259-264: [{ ...options, test: true, mappings: undefined,
    importMap }] *)
Definition test_build (pkg : Package.t) : BuildOptions.t :=
  let options := options_of pkg in
  BuildOptions.mk
    (BuildOptions.entryPoints options) (BuildOptions.outDir options)
    (BuildOptions.rootTestDir options) None (BuildOptions.package options)
    true (BuildOptions.typeCheck options)
    (Some (join [rootDir; "test_import_map.json"])).

(** Lines 269-273: [{ ...options, typeCheck: false, test: false }] *)
Definition publish_build (pkg : Package.t) : BuildOptions.t :=
  let options := options_of pkg in
  BuildOptions.mk
    (BuildOptions.entryPoints options) (BuildOptions.outDir options)
    (BuildOptions.rootTestDir options) (BuildOptions.mappings options)
    (BuildOptions.package options) false (Some false)
    (BuildOptions.importMap options).

(** [pkg.test !== false] *)
Definition tested (pkg : Package.t) : bool :=
  match Package.test pkg with
  | Some false => false
  | _ => true
  end.

(** The body of the loop of lines 193-275. *)
Definition build_package (pkg : Package.t) : Script unit :=
  let outDir := outDir_of pkg in
  _ <- perform (Op_chdir (Package.dir pkg)) (Deno_chdir (Package.dir pkg)) ;;
  _ <- rmBuildDir outDir ;;
  _ <- (if tested pkg then
          _ <- perform (Op_build (test_build pkg)) (build (test_build pkg)) ;;
          rmBuildDir outDir
        else pure tt) ;;
  _ <- perform (Op_build (publish_build pkg)) (build (publish_build pkg)) ;;
  adjustPackageJson pkg outDir.

(** The body of the loop of lines 278-281. *)
Definition remove_node_modules (pkg : Package.t) : Script unit :=
  perform (Op_remove (join [outDir_of pkg; "node_modules"]))
          (Deno_remove (join [outDir_of pkg; "node_modules"])).

(** The script over a table of packages. *)
Definition build_all (table : list Package.t)
  (pkgToBuild : option Positional) : Script unit :=
  _ <- perform (Op_emptyDir "./npm") (emptyDir "./npm") ;;
  filteredPackages <- match select table pkgToBuild with
                      | inl e => raise e
                      | inr l => pure l
                      end ;;
  _ <- for_each build_package filteredPackages ;;
  for_each remove_node_modules table.

(** The script, lines 137-281. *)
Definition main (pkgToBuild : option Positional) : Script unit :=
  build_all packages pkgToBuild.

(** ** Vocabulary of the properties *)




(** [join(outDir, "node_modules")] *)
Definition node_modules_of (pkg : Package.t) : string :=
  join [outDir_of pkg; "node_modules"].

(** What the cleanup asks of Deno for one package. *)
Definition cleanup_op (pkg : Package.t) : Op :=
  Op_remove (node_modules_of pkg).

(** The disk after [Deno.remove] of the [node_modules] of each of [pkgs], one
    after the other. *)
Fixpoint removed (pkgs : list Package.t) (w : Disk) : Disk :=
  match pkgs with
  | [] => w
  | pkg :: rest => removed rest (snd (Deno_remove (node_modules_of pkg) w))
  end.

(** The script up to the cleanup (lines 137-275): [build_all] without its
    last loop. *)
Definition build_phase (table : list Package.t)
  (pkgToBuild : option Positional) : Script unit :=
  _ <- perform (Op_emptyDir "./npm") (emptyDir "./npm") ;;
  filteredPackages <- match select table pkgToBuild with
                      | inl e => raise e
                      | inr l => pure l
                      end ;;
  for_each build_package filteredPackages.

End Script.

Arguments mkOutcome {H A} _ _ _.
Arguments settled {H A} _.
Arguments disk {H A} _.
Arguments ops {H A} _.

(** ** A stub host: the disk is a journal *)

Definition journal (line : string) : Promise (list string) unit :=
  fun w => (inr tt, (w ++ [line])%list).

Definition stub : Host := {|
  Disk := list string;
  Json := Obj;
  Num := nat;
  num_truthy := fun n => negb (Nat.eqb n 0);
  num_text := fun _ => "7";
  join := String.concat "/";
  rootDir := "/repo";
  VERSION := "0.5.0";
  VERSION_major := "0";
  emptyDir := fun dir => journal ("empty " ++ dir);
  Deno_chdir := fun dir => journal ("chdir " ++ dir);
  Deno_remove := fun path => journal ("remove " ++ path);
  build :=
    fun options =>
      journal ((if BuildOptions.test options then "test " else "build ")
                 ++ BuildOptions.outDir options);
  Deno_readTextFile :=
    fun path w => (inr "{}", snd (journal ("read " ++ path) w));
  Deno_writeTextFile := fun path _ => journal ("write " ++ path);
  JSON_parse := fun _ => inr [("pg", "^8.0.0")];
  JSON_stringify := fun _ => "{...}";
  dependencies := fun o => Some o;
  set_dependencies := fun deps _ => deps
|}.


Definition nope : @Positional stub := Text "nope".

(** An empty journal. *)
Definition blank : @Disk stub := [].


(** ** A host with a disk of paths: removing a missing path rejects *)

(** [path] is [dir] or lies below it. *)
Definition under (dir path : string) : bool :=
  orb (String.eqb dir path) (String.prefix (dir ++ "/") path).

(** [Deno.remove(path, { recursive: true })] rejects with [NotFound] when
    there is nothing at [path]. *)
Definition remove_path (path : string) : Promise (list string) unit :=
  fun w =>
    if existsb (under path) w
    then (inr tt, filter (fun p => negb (under path p)) w)
    else (inl (mkError ("NotFound: " ++ path)), w).

Definition read_path (path : string) : Promise (list string) string :=
  fun w =>
    if existsb (String.eqb path) w then (inr "{}", w)
    else (inl (mkError ("NotFound: " ++ path)), w).

Definition write_path (path : string) : Promise (list string) unit :=
  fun w =>
    (inr tt, if existsb (String.eqb path) w then w else (w ++ [path])%list).

(** [dnt] leaves a [package.json] and the installed [node_modules] in the
    output directory. *)
Definition build_on_disk (options : BuildOptions.t)
  : Promise (list string) unit :=
  fun w =>
    (inr tt,
     (w ++ [(BuildOptions.outDir options ++ "/package.json")%string;
            (BuildOptions.outDir options ++ "/node_modules")%string])%list).

(** The script is run from the root of the repository. *)
Definition paths : Host := {|
  Disk := list string;
  Json := Obj;
  Num := nat;
  num_truthy := fun n => negb (Nat.eqb n 0);
  num_text := fun _ => "7";
  join := String.concat "/";
  rootDir := "/repo";
  VERSION := "0.5.0";
  VERSION_major := "0";
  emptyDir :=
    fun dir w =>
      (inr tt, filter (fun p => negb (under ("/repo/" ++ dir) p)) w);
  Deno_chdir := fun _ w => (inr tt, w);
  Deno_remove := remove_path;
  build := build_on_disk;
  Deno_readTextFile := read_path;
  Deno_writeTextFile := fun path _ => write_path path;
  JSON_parse := fun _ => inr [("pg", "^8.0.0")];
  JSON_stringify := fun _ => "{...}";
  dependencies := fun o => Some o;
  set_dependencies := fun deps _ => deps
|}.

(** The plugin's package named on the command line, and a repository with
    nothing in [./npm]. *)
Definition plugin_only : option (@Positional paths) :=
  Some (Text "@nifty-lil-tricks/testing-plugin-postgresql").

Definition checkout : @Disk paths := ["/repo/mod.ts"].

End BuildNpm.

(** * Properties of the orchestration core *)

Section Properties.

Context {X : Externals}.

(** ** Running a sequence of awaits *)

Lemma bind_rejected {A B : Type} (m : Async A) (k : A -> Async B) w e :
  result (m w) = inl e ->
  bind m k w = mkOutcome (inl e) (world (m w)) (calls (m w)).
Proof.
  intros H. unfold bind. rewrite H. reflexivity.
Qed.

Lemma bind_fulfilled {A B : Type} (m : Async A) (k : A -> Async B) w a :
  result (m w) = inr a ->
  bind m k w =
    mkOutcome (result (k a (world (m w)))) (world (k a (world (m w))))
              (calls (m w) ++ calls (k a (world (m w)))).
Proof.
  intros H. unfold bind. rewrite H. reflexivity.
Qed.

(** A fulfilled [bind] had both of its parts fulfilled. *)
Lemma bind_fulfilled_inv {A B : Type} (m : Async A) (k : A -> Async B) w b :
  result (bind m k w) = inr b ->
  exists a,
    result (m w) = inr a
    /\ result (k a (world (m w))) = inr b
    /\ world (bind m k w) = world (k a (world (m w)))
    /\ calls (bind m k w) = (calls (m w) ++ calls (k a (world (m w))))%list.
Proof.
  intros H. destruct (result (m w)) as [e | a] eqn:Hm.
  - rewrite (bind_rejected m k w e Hm) in H. discriminate.
  - exists a. rewrite (bind_fulfilled m k w a Hm) in *. auto.
Qed.

Lemma phases_app (xs ys : list Call) :
  phases (xs ++ ys)%list = (phases xs ++ phases ys)%list.
Proof.
  induction xs as [| c xs IH]; simpl; [reflexivity |].
  destruct (phase_of c); simpl; rewrite IH; reflexivity.
Qed.

(** ** The server phase *)

(** [#setupNewDatabaseServer] run on a world: the draws it makes, the
    configuration it builds and what it does with it. *)
Lemma setupNewDatabaseServer_run (c : ServerConfig.t) w :
  let suffix := fst (Math_random_string w) in
  let u := taken_or_drawn (ServerConfig.user c) (snd (Math_random_string w)) in
  let p := taken_or_drawn (ServerConfig.password c) (snd u) in
  let dc :=
    DockerServerStrategyConfig.mk
      (or_else (ServerConfig.databaseServerNamePrefix c) "postgres"
         ++ "-" ++ suffix)
      (nullish (ServerConfig.port c) 0%Z)
      (fst u) (fst p)
      (or_else (ServerConfig.databaseName c)
         (or_else (ServerConfig.databaseNamePrefix c) "postgres"
            ++ "-" ++ suffix))
      (or_else (ServerConfig.version c) "latest") in
  let cs :=
    (Call_Math_random
       :: draws (ServerConfig.user c) ++ draws (ServerConfig.password c))%list in
  setupNewDatabaseServer c w =
    if String.eqb (ServerConfig.strategy c) ServerStrategy_DOCKER
    then mkOutcome (fst (DockerServerStrategy_setup dc (snd p)))
                   (snd (DockerServerStrategy_setup dc (snd p)))
                   (cs ++ [Call_DockerServerStrategy_setup dc])
    else mkOutcome
           (inl (mkError ("Unknown strategy: " ++ ServerConfig.strategy c)))
           (snd p) cs.
Proof.
  cbv zeta. unfold setupNewDatabaseServer, random_string, call, bind.
  destruct c as [tag port user password name prefix sprefix version].
  cbn [ServerConfig.strategy ServerConfig.port ServerConfig.user
       ServerConfig.password ServerConfig.databaseName
       ServerConfig.databaseNamePrefix
       ServerConfig.databaseServerNamePrefix ServerConfig.version
       result world calls fst snd].
  destruct user as [u |], password as [p |];
    cbn [taken_or_drawn draws ret result world calls fst snd app];
    destruct (String.eqb tag ServerStrategy_DOCKER);
    cbn [assertNever throw result world calls fst snd app]; reflexivity.
Qed.

Lemma phases_draws (a b : option string) :
  phases (Call_Math_random :: draws a ++ draws b) = [].
Proof. destruct a, b; reflexivity. Qed.

Lemma server_phases_fulfilled (s : ServerOrConfig Server) w srv :
  result (setupDatabaseServer s w) = inr srv ->
  phases (calls (setupDatabaseServer s w)) = [ServerSetup].
Proof.
  destruct s as [s | c]; [reflexivity |]. cbn [setupDatabaseServer].
  rewrite setupNewDatabaseServer_run. cbv zeta.
  destruct (String.eqb _ _); cbn [result calls]; [| discriminate].
  intros _. rewrite phases_app, (phases_draws _ _). reflexivity.
Qed.

Lemma server_phases_rejected (s : ServerOrConfig Server) w e :
  result (setupDatabaseServer s w) = inl e ->
  phases (calls (setupDatabaseServer s w)) = []
  \/ phases (calls (setupDatabaseServer s w)) = [ServerSetup].
Proof.
  destruct s as [s | c]; [right; reflexivity |]. cbn [setupDatabaseServer].
  rewrite setupNewDatabaseServer_run. cbv zeta.
  destruct (String.eqb _ _); cbn [result calls]; intros _.
  - right. rewrite phases_app, (phases_draws _ _). reflexivity.
  - left. apply phases_draws.
Qed.

(** ** The optional phases *)

Lemma database_phases (config : Config) server w :
  phases (calls (shouldRunDatabaseCreation config server w))
  = when (PluginConfig.database config) [DatabaseSetup].
Proof.
  unfold shouldRunDatabaseCreation.
  destruct (PluginConfig.database config); reflexivity.
Qed.

Lemma migration_phases_fulfilled (config : Config) server w out :
  result (shouldRunMigration config server w) = inr out ->
  phases (calls (shouldRunMigration config server w))
  = when (PluginConfig.migrate config) [MigrationRun].
Proof.
  unfold shouldRunMigration.
  destruct (PluginConfig.migrate config) as [m |]; [| reflexivity].
  destruct (String.eqb _ _); [reflexivity | discriminate].
Qed.

Lemma migration_phases_rejected (config : Config) server w e :
  result (shouldRunMigration config server w) = inl e ->
  phases (calls (shouldRunMigration config server w)) = []
  \/ phases (calls (shouldRunMigration config server w)) = [MigrationRun]
     /\ when (PluginConfig.migrate config) [MigrationRun] = [MigrationRun].
Proof.
  unfold shouldRunMigration.
  destruct (PluginConfig.migrate config) as [m |]; [| discriminate].
  destruct (String.eqb _ _); intros _; [right | left]; auto.
Qed.

Lemma seed_phases (config : Config) server w :
  phases (calls (shouldRunSeed config server w))
  = when (PluginConfig.seed config) [SeedRun].
Proof.
  unfold shouldRunSeed. destruct (PluginConfig.seed config); reflexivity.
Qed.

(** ** The shape of a run of [setup] *)

(** Replaces the outcomes named by a case of [setup_run] by the runs they
    stand for. *)
Ltac expose_outcomes :=
  repeat match goal with o := _ : Outcome _ |- _ => subst o end.

(** Every run of [setup] is one of the six of [setup_run]. *)
Lemma setup_runs (config : Config) w : setup_run config w.
Proof.
  destruct (result (setupDatabaseServer (PluginConfig.server config) w))
    as [e | srv] eqn:H1.
  { apply (rejected_by_server config w e H1).
    unfold setup. apply bind_rejected. exact H1. }
  destruct (result (init (PluginInstance.output srv)
              (world (setupDatabaseServer (PluginConfig.server config) w))))
    as [e | []] eqn:H2.
  { apply (rejected_by_init config w srv e H1 H2).
    unfold setup. rewrite (bind_fulfilled _ _ _ _ H1).
    rewrite (bind_rejected _ _ _ _ H2). reflexivity. }
  destruct (result (shouldRunDatabaseCreation config
              (PluginInstance.output srv)
              (world (init (PluginInstance.output srv)
                 (world (setupDatabaseServer (PluginConfig.server config) w))))))
    as [e | db] eqn:H3.
  { apply (rejected_by_database config w srv e H1 H2 H3).
    unfold setup. rewrite (bind_fulfilled _ _ _ _ H1).
    rewrite (bind_fulfilled _ _ _ _ H2).
    rewrite (bind_rejected _ _ _ _ H3). reflexivity. }
  destruct (result (shouldRunMigration config (DatabaseOutput.server db)
              (world (shouldRunDatabaseCreation config
                 (PluginInstance.output srv)
                 (world (init (PluginInstance.output srv)
                    (world (setupDatabaseServer
                              (PluginConfig.server config) w))))))))
    as [e | mig] eqn:H4.
  { apply (rejected_by_migration config w srv db e H1 H2 H3 H4).
    unfold setup. rewrite (bind_fulfilled _ _ _ _ H1).
    rewrite (bind_fulfilled _ _ _ _ H2).
    rewrite (bind_fulfilled _ _ _ _ H3). cbv zeta.
    rewrite (bind_rejected _ _ _ _ H4). reflexivity. }
  destruct (result (shouldRunSeed config (DatabaseOutput.server db)
              (world (shouldRunMigration config (DatabaseOutput.server db)
                 (world (shouldRunDatabaseCreation config
                    (PluginInstance.output srv)
                    (world (init (PluginInstance.output srv)
                       (world (setupDatabaseServer
                                 (PluginConfig.server config) w))))))))))
    as [e | sd] eqn:H5.
  { apply (rejected_by_seed config w srv db mig e H1 H2 H3 H4 H5).
    unfold setup. rewrite (bind_fulfilled _ _ _ _ H1).
    rewrite (bind_fulfilled _ _ _ _ H2).
    rewrite (bind_fulfilled _ _ _ _ H3). cbv zeta.
    rewrite (bind_fulfilled _ _ _ _ H4).
    rewrite (bind_rejected _ _ _ _ H5). reflexivity. }
  apply (fulfilled config w srv db mig sd H1 H2 H3 H4 H5).
  unfold setup. rewrite (bind_fulfilled _ _ _ _ H1).
  rewrite (bind_fulfilled _ _ _ _ H2).
  rewrite (bind_fulfilled _ _ _ _ H3). cbv zeta.
  rewrite (bind_fulfilled _ _ _ _ H4).
  rewrite (bind_fulfilled _ _ _ _ H5).
  cbn [ret result world calls]. rewrite app_nil_r. reflexivity.
Qed.

(** A fulfilled [setup] went through all five steps, each started in the
    world the one before it left, and returns the composite of the two
    teardowns it collected. *)
Lemma setup_fulfilled_inv (config : Config) w instance :
  result (setup config w) = inr instance ->
  exists srv db migrate seed,
    let o1 := setupDatabaseServer (PluginConfig.server config) w in
    let o2 := init (PluginInstance.output srv) (world o1) in
    let o3 :=
      shouldRunDatabaseCreation config (PluginInstance.output srv) (world o2) in
    let o4 := shouldRunMigration config (DatabaseOutput.server db) (world o3) in
    let o5 := shouldRunSeed config (DatabaseOutput.server db) (world o4) in
    result o1 = inr srv
    /\ result o2 = inr tt
    /\ result o3 = inr db
    /\ result o4 = inr migrate
    /\ result o5 = inr seed
    /\ instance =
         PluginInstance.mk
           (buildTeardown [DatabaseOutput.teardown db;
                           PluginInstance.teardown srv])
           (PluginResult.mk (DatabaseOutput.server db) migrate seed)
    /\ world (setup config w) = world o5
    /\ calls (setup config w)
       = (calls o1 ++ calls o2 ++ calls o3 ++ calls o4 ++ calls o5)%list.
Proof.
  intros H.
  destruct (setup_runs config w); rewrite Hrun in H; cbn [result] in H;
    try discriminate H.
  injection H as <-. exists srv, db, migrate, seed. cbv zeta.
  rewrite Hrun. cbn [world calls]. repeat split; assumption.
Qed.

(** ** The order of the collaborator calls *)

(** A fulfilled [setup] called exactly the phases its configuration asks
    for, in pipeline order. *)
Lemma setup_phases_fulfilled (config : Config) w instance :
  result (setup config w) = inr instance ->
  phases (calls (setup config w)) = pipeline config.
Proof.
  intros H. apply setup_fulfilled_inv in H.
  destruct H as (srv & db & mig & sd & H). cbv zeta in H.
  destruct H as (H1 & H2 & H3 & H4 & H5 & _ & _ & Hc).
  rewrite Hc. rewrite !phases_app.
  rewrite (server_phases_fulfilled _ _ _ H1), database_phases,
    (migration_phases_fulfilled _ _ _ _ H4), seed_phases.
  reflexivity.
Qed.

(** Whatever the outcome, the phases called are an initial part of the
    pipeline. *)
Lemma setup_phases_prefix (config : Config) w :
  exists rest,
    pipeline config = (phases (calls (setup config w)) ++ rest)%list.
Proof.
  destruct (setup_runs config w) as
    [ e o1 H1 Hrun | srv e o1 o2 H1 H2 Hrun | srv e o1 o2 o3 H1 H2 H3 Hrun
    | srv db e o1 o2 o3 o4 H1 H2 H3 H4 Hrun
    | srv db mig e o1 o2 o3 o4 o5 H1 H2 H3 H4 H5 Hrun
    | srv db mig sd o1 o2 o3 o4 o5 H1 H2 H3 H4 H5 Hrun ];
    expose_outcomes; rewrite Hrun; cbn [calls]; rewrite ?phases_app;
    unfold pipeline; try rewrite (server_phases_fulfilled _ _ _ H1).
  - destruct (server_phases_rejected _ _ _ H1) as [-> | ->];
      eexists; reflexivity.
  - eexists; reflexivity.
  - rewrite database_phases. eexists; reflexivity.
  - rewrite database_phases.
    destruct (migration_phases_rejected _ _ _ _ H4) as [-> | [-> ->]].
    + exists (when (PluginConfig.migrate config) [MigrationRun]
                ++ when (PluginConfig.seed config) [SeedRun])%list.
      destruct (PluginConfig.database config); reflexivity.
    + exists (when (PluginConfig.seed config) [SeedRun]).
      destruct (PluginConfig.database config); reflexivity.
  - rewrite database_phases, (migration_phases_fulfilled _ _ _ _ H4),
      seed_phases.
    exists []. rewrite app_nil_r. reflexivity.
  - rewrite database_phases, (migration_phases_fulfilled _ _ _ _ H4),
      seed_phases.
    exists []. rewrite app_nil_r. reflexivity.
Qed.

(** ** Teardown composition *)

Lemma buildTeardown_pair (a b : Teardown) w :
  buildTeardown [a; b] w
  = match a w with
    | (inr _, w1) => b w1
    | (inl e, w1) => (inl e, w1)
    end.
Proof.
  cbn [buildTeardown]. destruct (a w) as [[e | u] w1]; [reflexivity |].
  destruct (b w1) as [[e | []] w2]; reflexivity.
Qed.

Lemma buildTeardown_fulfilled (ts : list Teardown) w w' :
  buildTeardown ts w = (inr tt, w') -> w' = run_each ts w.
Proof.
  revert w. induction ts as [| t ts IH]; intros w H; cbn in *.
  - congruence.
  - destruct (t w) as [[e | u] w1]; [discriminate |]. exact (IH _ H).
Qed.

Lemma buildTeardown_app (before after : list Teardown) w w1 :
  buildTeardown before w = (inr tt, w1) ->
  buildTeardown (before ++ after) w = buildTeardown after w1.
Proof.
  revert w. induction before as [| t ts IH]; intros w H; cbn in *.
  - congruence.
  - destruct (t w) as [[e | u] w2]; [discriminate |]. exact (IH _ H).
Qed.

Lemma buildTeardown_rejected (ts : list Teardown) w e w' :
  buildTeardown ts w = (inl e, w') ->
  exists before t after w1,
    ts = (before ++ t :: after)%list
    /\ buildTeardown before w = (inr tt, w1)
    /\ t w1 = (inl e, w').
Proof.
  revert w. induction ts as [| t ts IH]; intros w H; cbn in H.
  - discriminate.
  - destruct (t w) as [[e1 | u] w1] eqn:Ht.
    + injection H as <- <-. exists [], t, ts, w. auto.
    + destruct (IH _ H) as (before & t' & after & w2 & -> & Hb & Ht').
      exists (t :: before), t', after, w2. repeat split; [| exact Ht'].
      cbn. rewrite Ht. exact Hb.
Qed.

(** C2, as amended.  The composite teardown runs its actions front to back
    and stops at the first one that throws: when the actions [before] have
    all been fulfilled and the next one, [t], rejects with [e], the composite
    rejects with [e] in the world [t] left, whatever the actions [after] it
    are (they are not run).  When the composite is fulfilled, every action
    was run; and a composite that rejects did so at such a first throwing
    action. *)
Theorem buildTeardown_stops_at_first_rejection :
  (forall (before after : list Teardown) (t : Teardown) w w1 e w',
      buildTeardown before w = (inr tt, w1) ->
      t w1 = (inl e, w') ->
      buildTeardown (before ++ t :: after) w = (inl e, w')
      /\ w1 = run_each before w)
  /\ (forall (ts : list Teardown) w w',
        buildTeardown ts w = (inr tt, w') -> w' = run_each ts w)
  /\ (forall (ts : list Teardown) w e w',
        buildTeardown ts w = (inl e, w') ->
        exists before t after w1,
          ts = (before ++ t :: after)%list
          /\ buildTeardown before w = (inr tt, w1)
          /\ t w1 = (inl e, w')).
Proof.
  split; [| split].
  - intros before after t w w1 e w' Hb Ht. split.
    + rewrite (buildTeardown_app _ _ _ _ Hb). cbn. rewrite Ht. reflexivity.
    + exact (buildTeardown_fulfilled _ _ _ Hb).
  - exact buildTeardown_fulfilled.
  - exact buildTeardown_rejected.
Qed.

(** C6.  The teardown of a fulfilled [setup] is the composite of the
    teardown the database phase returned followed by the teardown the server
    phase returned, in that order: invoked, it runs the database teardown
    first and, once that is fulfilled, the server teardown in the world the
    database teardown left. *)
Theorem composite_teardown_database_then_server (config : Config) w instance :
  result (setup config w) = inr instance ->
  exists srv db,
    let o1 := setupDatabaseServer (PluginConfig.server config) w in
    let o2 := init (PluginInstance.output srv) (world o1) in
    let o3 :=
      shouldRunDatabaseCreation config (PluginInstance.output srv) (world o2) in
    result o1 = inr srv
    /\ result o2 = inr tt
    /\ result o3 = inr db
    /\ PluginInstance.teardown instance
       = buildTeardown [DatabaseOutput.teardown db;
                        PluginInstance.teardown srv]
    /\ forall w0,
        PluginInstance.teardown instance w0
        = match DatabaseOutput.teardown db w0 with
          | (inr _, w1) => PluginInstance.teardown srv w1
          | (inl e, w1) => (inl e, w1)
          end.
Proof.
  intros H. apply setup_fulfilled_inv in H.
  destruct H as (srv & db & mig & sd & H). cbv zeta in H.
  destruct H as (H1 & H2 & H3 & _ & _ & -> & _).
  exists srv, db. cbv zeta. repeat split; try assumption.
  intros w0. apply buildTeardown_pair.
Qed.

(** ** The optional phases, omitted *)

(** C5.  When the configuration omits [database], the database phase hands
    back the very server it was given, with a teardown that does nothing,
    without calling any collaborator and without touching the world. *)
Theorem database_omitted_passes_server_through (config : Config) server w :
  PluginConfig.database config = None ->
  exists db,
    shouldRunDatabaseCreation config server w = mkOutcome (inr db) w []
    /\ DatabaseOutput.server db = server
    /\ no_op (DatabaseOutput.teardown db).
Proof.
  intros H. unfold shouldRunDatabaseCreation. rewrite H.
  eexists. split; [reflexivity |]. split; [reflexivity |].
  intros w0. reflexivity.
Qed.

Lemma phase_in_phases (c : Call) (p : Phase) (cs : list Call) :
  In c cs -> phase_of c = Some p -> In p (phases cs).
Proof.
  induction cs as [| c' cs IH]; cbn; [tauto |].
  intros [-> | Hin] Hp.
  - rewrite Hp. left. reflexivity.
  - destruct (phase_of c'); [right |]; auto.
Qed.

Lemma phase_not_called (config : Config) w (p : Phase) :
  ~ In p (pipeline config) -> ~ In p (phases (calls (setup config w))).
Proof.
  intros Hp Hin. destruct (setup_phases_prefix config w) as [rest Hrest].
  apply Hp. rewrite Hrest. apply in_or_app. left. exact Hin.
Qed.

(** C4.  When the configuration omits [migrate], the migration step
    answers [{ results: [] }] on the spot, no run of [setup] calls the
    migration strategy, and the [migrate] field of a fulfilled [setup] is
    [{ results: [] }]; likewise for [seed] and the seed strategy.  The fields
    are not optional in [PluginResult]. *)
Theorem omitted_phase_gives_empty_results (config : Config) :
  (PluginConfig.migrate config = None ->
   (forall server w,
       shouldRunMigration config server w
       = mkOutcome (inr (MigrationOutput.mk [])) w [])
   /\ (forall w c, In c (calls (setup config w)) -> is_migration_call c = false)
   /\ (forall w instance,
          result (setup config w) = inr instance ->
          PluginResult.migrate (PluginInstance.output instance)
          = MigrationOutput.mk []))
  /\ (PluginConfig.seed config = None ->
      (forall server w,
          shouldRunSeed config server w
          = mkOutcome (inr (SeedOutput.mk [])) w [])
      /\ (forall w c, In c (calls (setup config w)) -> is_seed_call c = false)
      /\ (forall w instance,
             result (setup config w) = inr instance ->
             PluginResult.seed (PluginInstance.output instance)
             = SeedOutput.mk [])).
Proof.
  split; intros Hnone.
  - assert (Hstep : forall server w,
               shouldRunMigration config server w
               = mkOutcome (inr (MigrationOutput.mk [])) w []).
    { intros server w. unfold shouldRunMigration. rewrite Hnone. reflexivity. }
    split; [exact Hstep | split].
    + intros w c Hin. destruct (is_migration_call c) eqn:Hc; [| reflexivity].
      exfalso. apply (phase_not_called config w MigrationRun).
      * unfold pipeline. rewrite Hnone. cbn.
        destruct (PluginConfig.database config), (PluginConfig.seed config);
          cbn; intuition discriminate.
      * apply (phase_in_phases c _ _ Hin). destruct c; cbn in *; congruence.
    + intros w instance H. apply setup_fulfilled_inv in H.
      destruct H as (srv & db & mig & sd & H). cbv zeta in H.
      destruct H as (_ & _ & _ & H4 & _ & -> & _).
      rewrite Hstep in H4. cbn in *. congruence.
  - assert (Hstep : forall server w,
               shouldRunSeed config server w
               = mkOutcome (inr (SeedOutput.mk [])) w []).
    { intros server w. unfold shouldRunSeed. rewrite Hnone. reflexivity. }
    split; [exact Hstep | split].
    + intros w c Hin. destruct (is_seed_call c) eqn:Hc; [| reflexivity].
      exfalso. apply (phase_not_called config w SeedRun).
      * unfold pipeline. rewrite Hnone. cbn.
        destruct (PluginConfig.database config), (PluginConfig.migrate config);
          cbn; intuition discriminate.
      * apply (phase_in_phases c _ _ Hin). destruct c; cbn in *; congruence.
    + intros w instance H. apply setup_fulfilled_inv in H.
      destruct H as (srv & db & mig & sd & H). cbv zeta in H.
      destruct H as (_ & _ & _ & _ & H5 & -> & _).
      rewrite Hstep in H5. cbn in *. congruence.
Qed.

(** ** Sequencing *)

(** C9.  Every run of [setup] is one of the six of [setup_run]: the server
    setup, then the readiness handshake, then the database creation, then
    the migration, then the seeding, each step started in the world the step
    before it left once fulfilled, and a rejected step ending the run.  The
    phases called are therefore always an initial part of the pipeline the
    configuration asks for, and all of it, in order, when [setup] is
    fulfilled. *)
Theorem phases_run_in_pipeline_order (config : Config) w :
  setup_run config w
  /\ (exists rest,
         pipeline config = (phases (calls (setup config w)) ++ rest)%list)
  /\ (forall instance,
         result (setup config w) = inr instance ->
         phases (calls (setup config w)) = pipeline config).
Proof.
  split; [apply setup_runs | split].
  - apply setup_phases_prefix.
  - intros instance. apply setup_phases_fulfilled.
Qed.

(** ** A migration that throws *)

Lemma setup_rejected_by_migration (config : Config) w srv db e :
  let o1 := setupDatabaseServer (PluginConfig.server config) w in
  let o2 := init (PluginInstance.output srv) (world o1) in
  let o3 :=
    shouldRunDatabaseCreation config (PluginInstance.output srv) (world o2) in
  let o4 := shouldRunMigration config (DatabaseOutput.server db) (world o3) in
  result o1 = inr srv ->
  result o2 = inr tt ->
  result o3 = inr db ->
  result o4 = inl e ->
  result (setup config w) = inl e
  /\ world (setup config w) = world o4.
Proof.
  cbv zeta. intros H1 H2 H3 H4. unfold setup.
  rewrite (bind_fulfilled _ _ _ _ H1).
  rewrite (bind_fulfilled _ _ _ _ H2).
  rewrite (bind_fulfilled _ _ _ _ H3). cbv zeta.
  rewrite (bind_rejected _ _ _ _ H4). split; reflexivity.
Qed.

(** C1, as amended.  When the server setup, the handshake and the database
    phase are fulfilled and the migration throws [e], [setup] rejects with
    [e] in the world the migration left: no teardown is run and the seed is
    not started.  The rejection carries the error alone: the teardowns of
    the fulfilled phases are not handed to the caller. *)
Theorem migration_failure_rejects_setup (config : Config) w srv db e :
  let o1 := setupDatabaseServer (PluginConfig.server config) w in
  let o2 := init (PluginInstance.output srv) (world o1) in
  let o3 :=
    shouldRunDatabaseCreation config (PluginInstance.output srv) (world o2) in
  let o4 := shouldRunMigration config (DatabaseOutput.server db) (world o3) in
  result o1 = inr srv ->
  result o2 = inr tt ->
  result o3 = inr db ->
  result o4 = inl e ->
  result (setup config w) = inl e
  /\ world (setup config w) = world o4
  /\ calls (setup config w)
     = (calls o1 ++ calls o2 ++ calls o3 ++ calls o4)%list
  /\ caller_teardown (setup config w) = None.
Proof.
  cbv zeta. intros H1 H2 H3 H4. unfold caller_teardown, setup.
  rewrite (bind_fulfilled _ _ _ _ H1).
  rewrite (bind_fulfilled _ _ _ _ H2).
  rewrite (bind_fulfilled _ _ _ _ H3). cbv zeta.
  rewrite (bind_rejected _ _ _ _ H4). cbn [result world calls].
  repeat split.
Qed.

(** ** Strategy dispatch *)

Lemma unknown_server_strategy_run (config : Config) w c :
  PluginConfig.server config = NewServer c ->
  ServerConfig.strategy c <> ServerStrategy_DOCKER ->
  exists w' cs,
    setup config w
    = mkOutcome
        (inl (mkError ("Unknown strategy: " ++ ServerConfig.strategy c)))
        w' cs
    /\ phases cs = [].
Proof.
  intros Hs Htag. apply String.eqb_neq in Htag.
  assert (H1 : setupDatabaseServer (PluginConfig.server config) w
               = setupNewDatabaseServer c w) by (rewrite Hs; reflexivity).
  rewrite setupNewDatabaseServer_run in H1. cbv zeta in H1.
  rewrite Htag in H1.
  do 2 eexists. split.
  - unfold setup. apply bind_rejected. rewrite H1. reflexivity.
  - rewrite H1. cbn [calls]. apply phases_draws.
Qed.

Lemma unknown_migration_strategy_step (config : Config) m server w :
  PluginConfig.migrate config = Some m ->
  MigrationConfig.strategy m <> MigrationStrategy_SQL ->
  shouldRunMigration config server w
  = mkOutcome
      (inl (mkError ("Unknown migration strategy: "
                       ++ MigrationConfig.strategy m)))
      w [].
Proof.
  intros Hm Htag. apply String.eqb_neq in Htag.
  unfold shouldRunMigration. rewrite Hm, Htag. reflexivity.
Qed.

Lemma server_phases_only (s : ServerOrConfig Server) w p :
  In p (phases (calls (setupDatabaseServer s w))) -> p = ServerSetup.
Proof.
  destruct (result (setupDatabaseServer s w)) as [e | srv] eqn:H.
  - destruct (server_phases_rejected _ _ _ H) as [-> | ->]; cbn; intuition.
  - rewrite (server_phases_fulfilled _ _ _ H). cbn; intuition.
Qed.

Lemma database_phases_only (config : Config) server w p :
  In p (phases (calls (shouldRunDatabaseCreation config server w))) ->
  p = DatabaseSetup.
Proof.
  rewrite database_phases. destruct (PluginConfig.database config); cbn;
    intuition.
Qed.

(** C3.  A configuration whose server strategy tag, or whose migration
    strategy tag, is not a member of its enum never gets a fulfilled
    [setup]: the run rejects, and neither the migration strategy nor the
    seed strategy is called.  An unknown server tag rejects with
    [Unknown strategy: <tag>] before any collaborator is called; an unknown
    migration tag, once the steps before the migration are fulfilled,
    rejects with [Unknown migration strategy: <tag>] in the world the
    database phase left. *)
Theorem unknown_strategy_rejects (config : Config) w :
  unknown_server_strategy config \/ unknown_migration_strategy config ->
  exists e,
    result (setup config w) = inl e
    /\ ~ In MigrationRun (phases (calls (setup config w)))
    /\ ~ In SeedRun (phases (calls (setup config w)))
    /\ (forall c,
           PluginConfig.server config = NewServer c ->
           ServerConfig.strategy c <> ServerStrategy_DOCKER ->
           e = mkError ("Unknown strategy: " ++ ServerConfig.strategy c)
           /\ phases (calls (setup config w)) = [])
    /\ (forall m srv db,
           let o1 := setupDatabaseServer (PluginConfig.server config) w in
           let o2 := init (PluginInstance.output srv) (world o1) in
           let o3 :=
             shouldRunDatabaseCreation config (PluginInstance.output srv)
                                       (world o2) in
           PluginConfig.migrate config = Some m ->
           MigrationConfig.strategy m <> MigrationStrategy_SQL ->
           result o1 = inr srv ->
           result o2 = inr tt ->
           result o3 = inr db ->
           e = mkError ("Unknown migration strategy: "
                          ++ MigrationConfig.strategy m)
           /\ world (setup config w) = world o3).
Proof.
  assert (Hserver : forall c e,
             PluginConfig.server config = NewServer c ->
             ServerConfig.strategy c <> ServerStrategy_DOCKER ->
             result (setup config w) = inl e ->
             e = mkError ("Unknown strategy: " ++ ServerConfig.strategy c)
             /\ phases (calls (setup config w)) = []).
  { intros c e Hs Htag He.
    destruct (unknown_server_strategy_run config w c Hs Htag)
      as (w' & cs & Hrun & Hcs).
    rewrite Hrun in *. cbn in *. split; congruence. }
  assert (Hmigration : forall m srv db e,
             PluginConfig.migrate config = Some m ->
             MigrationConfig.strategy m <> MigrationStrategy_SQL ->
             result (setupDatabaseServer (PluginConfig.server config) w)
             = inr srv ->
             result (init (PluginInstance.output srv)
                       (world (setupDatabaseServer
                                 (PluginConfig.server config) w)))
             = inr tt ->
             result (shouldRunDatabaseCreation config
                       (PluginInstance.output srv)
                       (world (init (PluginInstance.output srv)
                          (world (setupDatabaseServer
                                    (PluginConfig.server config) w)))))
             = inr db ->
             result (setup config w) = inl e ->
             e = mkError ("Unknown migration strategy: "
                            ++ MigrationConfig.strategy m)
             /\ world (setup config w)
                = world (shouldRunDatabaseCreation config
                           (PluginInstance.output srv)
                           (world (init (PluginInstance.output srv)
                              (world (setupDatabaseServer
                                        (PluginConfig.server config) w)))))).
  { intros m srv db e Hm Htag H1 H2 H3 He.
    pose proof (unknown_migration_strategy_step config m
                  (DatabaseOutput.server db)
                  (world (shouldRunDatabaseCreation config
                            (PluginInstance.output srv)
                            (world (init (PluginInstance.output srv)
                               (world (setupDatabaseServer
                                         (PluginConfig.server config) w))))))
                  Hm Htag) as Hstep.
    assert (H4 : result (shouldRunMigration config (DatabaseOutput.server db)
                   (world (shouldRunDatabaseCreation config
                             (PluginInstance.output srv)
                             (world (init (PluginInstance.output srv)
                                (world (setupDatabaseServer
                                          (PluginConfig.server config) w)))))))
                 = inl (mkError ("Unknown migration strategy: "
                                   ++ MigrationConfig.strategy m)))
      by (rewrite Hstep; reflexivity).
    destruct (setup_rejected_by_migration config w srv db _
                H1 H2 H3 H4) as (Hr & Hw).
    rewrite Hr in He. injection He as <-. split; [reflexivity |].
    rewrite Hw, Hstep. reflexivity. }
  intros [(c & Hs & Htag) | (m & Hm & Htag)].
  - destruct (unknown_server_strategy_run config w c Hs Htag)
      as (w' & cs & Hrun & Hcs).
    eexists. split; [rewrite Hrun; reflexivity |].
    split; [rewrite Hrun; cbn [calls]; rewrite Hcs; cbn; tauto |].
    split; [rewrite Hrun; cbn [calls]; rewrite Hcs; cbn; tauto |].
    split.
    + intros c' Hs' Htag'. apply Hserver; try assumption.
      rewrite Hrun. reflexivity.
    + cbv zeta. intros m srv db Hm Htag' H1 H2 H3.
      apply (Hmigration m srv db); try assumption.
      rewrite Hrun. reflexivity.
  - pose proof (unknown_migration_strategy_step config m) as Hstep.
    destruct (setup_runs config w) as
      [ e o1 H1 Hrun | srv e o1 o2 H1 H2 Hrun | srv e o1 o2 o3 H1 H2 H3 Hrun
      | srv db e o1 o2 o3 o4 H1 H2 H3 H4 Hrun
      | srv db mig e o1 o2 o3 o4 o5 H1 H2 H3 H4 H5 Hrun
      | srv db mig sd o1 o2 o3 o4 o5 H1 H2 H3 H4 H5 Hrun ];
      expose_outcomes;
      try (rewrite (Hstep _ _ Hm Htag) in H4; discriminate H4);
      (exists e; split; [rewrite Hrun; reflexivity |]);
      (split; [| split; [| split]]);
      try (intros c Hs Htag'; apply Hserver; try assumption;
           rewrite Hrun; reflexivity);
      try (cbv zeta; intros m' srv' db' Hm' Htag' H1' H2' H3';
           apply (Hmigration m' srv' db'); try assumption;
           rewrite Hrun; reflexivity);
      rewrite Hrun; cbn [calls]; rewrite ?(Hstep _ _ Hm Htag); cbn [calls];
      rewrite ?app_nil_r, ?phases_app; intros Hin;
      repeat (apply in_app_or in Hin; destruct Hin as [Hin | Hin]);
      try (apply server_phases_only in Hin; discriminate Hin);
      try (apply database_phases_only in Hin; discriminate Hin);
      cbn in Hin; intuition discriminate.
Qed.

(** ** Default synthesis for a new server *)

Lemma or_else_given (o : option string) (s d : string) :
  given o s -> or_else o d = s.
Proof.
  intros [-> Hs]. unfold or_else. apply String.eqb_neq in Hs. rewrite Hs.
  reflexivity.
Qed.

Lemma or_else_unset (o : option string) (d : string) :
  unset o -> or_else o d = d.
Proof. intros [-> | ->]; reflexivity. Qed.

Lemma docker_configs_app (xs ys : list Call) :
  docker_configs (xs ++ ys) = (docker_configs xs ++ docker_configs ys)%list.
Proof.
  induction xs as [| c xs IH]; [reflexivity |].
  destruct c; cbn; rewrite ?IH; reflexivity.
Qed.

Lemma docker_configs_draws (a b : option string) :
  docker_configs (Call_Math_random :: draws a ++ draws b) = [].
Proof. destruct a, b; reflexivity. Qed.

(** The one configuration the container strategy is set up with. *)
Lemma setupNewDatabaseServer_docker_config (c : ServerConfig.t) w :
  ServerConfig.strategy c = ServerStrategy_DOCKER ->
  let suffix := fst (Math_random_string w) in
  let u := taken_or_drawn (ServerConfig.user c) (snd (Math_random_string w)) in
  let p := taken_or_drawn (ServerConfig.password c) (snd u) in
  docker_configs (calls (setupNewDatabaseServer c w))
  = [DockerServerStrategyConfig.mk
       (or_else (ServerConfig.databaseServerNamePrefix c) "postgres"
          ++ "-" ++ suffix)
       (nullish (ServerConfig.port c) 0%Z)
       (fst u) (fst p)
       (or_else (ServerConfig.databaseName c)
          (or_else (ServerConfig.databaseNamePrefix c) "postgres"
             ++ "-" ++ suffix))
       (or_else (ServerConfig.version c) "latest")].
Proof.
  intros Htag. cbv zeta. rewrite setupNewDatabaseServer_run. cbv zeta.
  rewrite Htag, String.eqb_refl. cbn [calls].
  rewrite docker_configs_app, docker_configs_draws. reflexivity.
Qed.

(** C7, as amended.  For a provisioning request with the container
    strategy, the configuration handed to the strategy has: the port given,
    or 0; the user and the password given, or each a string drawn from the
    random source; as database name the [databaseName] given non-empty,
    whatever the prefix, and when [databaseName] is missing or empty the
    [databaseNamePrefix] given non-empty, or [postgres] when that is missing
    or empty too, joined by a dash with the random suffix drawn first; as
    server name the [databaseServerNamePrefix] given non-empty, or
    [postgres], joined with the same suffix; the version given non-empty, or
    [latest] when it is missing or empty. *)
Theorem docker_config_defaults (c : ServerConfig.t) w :
  ServerConfig.strategy c = ServerStrategy_DOCKER ->
  let suffix := fst (Math_random_string w) in
  let w1 := snd (Math_random_string w) in
  let w2 := snd (taken_or_drawn (ServerConfig.user c) w1) in
  exists dc,
    docker_configs (calls (setupNewDatabaseServer c w)) = [dc]
    /\ (ServerConfig.port c = None -> DockerServerStrategyConfig.port dc = 0%Z)
    /\ (forall n, ServerConfig.port c = Some n ->
                  DockerServerStrategyConfig.port dc = n)
    /\ (ServerConfig.user c = None ->
        DockerServerStrategyConfig.user dc = fst (Math_random_string w1))
    /\ (forall v, ServerConfig.user c = Some v ->
                  DockerServerStrategyConfig.user dc = v)
    /\ (ServerConfig.password c = None ->
        DockerServerStrategyConfig.password dc = fst (Math_random_string w2))
    /\ (forall v, ServerConfig.password c = Some v ->
                  DockerServerStrategyConfig.password dc = v)
    /\ (forall n, given (ServerConfig.databaseName c) n ->
                  DockerServerStrategyConfig.database dc = n)
    /\ (forall pre,
           unset (ServerConfig.databaseName c) ->
           given (ServerConfig.databaseNamePrefix c) pre ->
           DockerServerStrategyConfig.database dc = pre ++ "-" ++ suffix)
    /\ (unset (ServerConfig.databaseName c) ->
        unset (ServerConfig.databaseNamePrefix c) ->
        DockerServerStrategyConfig.database dc = "postgres" ++ "-" ++ suffix)
    /\ (forall pre,
           given (ServerConfig.databaseServerNamePrefix c) pre ->
           DockerServerStrategyConfig.serverName dc = pre ++ "-" ++ suffix)
    /\ (unset (ServerConfig.databaseServerNamePrefix c) ->
        DockerServerStrategyConfig.serverName dc
        = "postgres" ++ "-" ++ suffix)
    /\ (unset (ServerConfig.version c) ->
        DockerServerStrategyConfig.version dc = "latest")
    /\ (forall v, given (ServerConfig.version c) v ->
                  DockerServerStrategyConfig.version dc = v).
Proof.
  intros Htag. cbv zeta. eexists. split.
  - apply (setupNewDatabaseServer_docker_config c w Htag).
  - cbn [DockerServerStrategyConfig.port DockerServerStrategyConfig.user
         DockerServerStrategyConfig.password
         DockerServerStrategyConfig.database
         DockerServerStrategyConfig.serverName
         DockerServerStrategyConfig.version].
    repeat split.
    + intros ->. reflexivity.
    + intros n ->. reflexivity.
    + intros ->. reflexivity.
    + intros v ->. reflexivity.
    + intros ->. reflexivity.
    + intros v ->. reflexivity.
    + intros n Hn. apply (or_else_given _ _ _ Hn).
    + intros pre Hname Hpre. rewrite (or_else_unset _ _ Hname).
      rewrite (or_else_given _ _ _ Hpre). reflexivity.
    + intros Hname Hpre.
      rewrite (or_else_unset _ _ Hname), (or_else_unset _ _ Hpre).
      reflexivity.
    + intros pre Hpre. rewrite (or_else_given _ _ _ Hpre). reflexivity.
    + intros Hpre. rewrite (or_else_unset _ _ Hpre). reflexivity.
    + intros Hv. apply (or_else_unset _ _ Hv).
    + intros v Hv. apply (or_else_given _ _ _ Hv).
Qed.

(** C10.  An empty string for [databaseName], [databaseNamePrefix],
    [databaseServerNamePrefix] or [version] is treated exactly as a missing
    field: the run is the run of the same request without the field, and the
    default is what reaches the container strategy: for an empty
    [databaseName] the prefix joined with the suffix, for an empty
    [databaseNamePrefix] (where no name is given) and for an empty
    [databaseServerNamePrefix] the word [postgres] joined with the suffix,
    for an empty [version] the word [latest].  An empty [user] or [password]
    and a [port] of 0 are taken as given: they reach the container strategy
    unchanged, and when both [user] and [password] are empty strings the
    only random string drawn is the suffix. *)
Theorem empty_string_and_zero_asymmetry
  (tag : string) (port : option Z) (user password : option string)
  (name prefix sprefix version : option string) w :
  (setupNewDatabaseServer
     (ServerConfig.mk tag port user password (Some "") prefix sprefix version) w
   = setupNewDatabaseServer
       (ServerConfig.mk tag port user password None prefix sprefix version) w)
  /\ (setupNewDatabaseServer
        (ServerConfig.mk tag port user password name (Some "") sprefix version)
        w
      = setupNewDatabaseServer
          (ServerConfig.mk tag port user password name None sprefix version) w)
  /\ (setupNewDatabaseServer
        (ServerConfig.mk tag port user password name prefix (Some "") version)
        w
      = setupNewDatabaseServer
          (ServerConfig.mk tag port user password name prefix None version) w)
  /\ (setupNewDatabaseServer
        (ServerConfig.mk tag port user password name prefix sprefix (Some ""))
        w
      = setupNewDatabaseServer
          (ServerConfig.mk tag port user password name prefix sprefix None) w)
  /\ (tag = ServerStrategy_DOCKER ->
      exists dc,
        docker_configs
          (calls (setupNewDatabaseServer
                    (ServerConfig.mk tag port user password name prefix
                                     sprefix version) w))
        = [dc]
        /\ (user = Some "" -> DockerServerStrategyConfig.user dc = "")
        /\ (password = Some "" -> DockerServerStrategyConfig.password dc = "")
        /\ (port = Some 0%Z -> DockerServerStrategyConfig.port dc = 0%Z)
        /\ (user = Some "" ->
            password = Some "" ->
            calls (setupNewDatabaseServer
                     (ServerConfig.mk tag port user password name prefix
                                      sprefix version) w)
            = [Call_Math_random; Call_DockerServerStrategy_setup dc])
        /\ (forall pre,
               name = Some "" ->
               given prefix pre ->
               DockerServerStrategyConfig.database dc
               = pre ++ "-" ++ fst (Math_random_string w))
        /\ (name = Some "" ->
            unset prefix ->
            DockerServerStrategyConfig.database dc
            = "postgres" ++ "-" ++ fst (Math_random_string w))
        /\ (unset name ->
            prefix = Some "" ->
            DockerServerStrategyConfig.database dc
            = "postgres" ++ "-" ++ fst (Math_random_string w))
        /\ (sprefix = Some "" ->
            DockerServerStrategyConfig.serverName dc
            = "postgres" ++ "-" ++ fst (Math_random_string w))
        /\ (version = Some "" ->
            DockerServerStrategyConfig.version dc = "latest")).
Proof.
  repeat split; try reflexivity.
  intros Htag. eexists. split.
  - apply (setupNewDatabaseServer_docker_config
             (ServerConfig.mk tag port user password name prefix sprefix
                              version) w Htag).
  - cbn [ServerConfig.user ServerConfig.password ServerConfig.port
         ServerConfig.databaseName ServerConfig.databaseNamePrefix
         ServerConfig.databaseServerNamePrefix ServerConfig.version
         DockerServerStrategyConfig.port DockerServerStrategyConfig.user
         DockerServerStrategyConfig.password
         DockerServerStrategyConfig.database
         DockerServerStrategyConfig.serverName
         DockerServerStrategyConfig.version].
    repeat split; try (intros ->; reflexivity).
    + intros -> ->. rewrite setupNewDatabaseServer_run. cbv zeta.
      cbn [ServerConfig.strategy]. rewrite Htag, String.eqb_refl. reflexivity.
    + intros pre -> Hpre. cbn [or_else String.eqb].
      rewrite (or_else_given _ _ _ Hpre). reflexivity.
    + intros -> Hpre. cbn [or_else String.eqb].
      rewrite (or_else_unset _ _ Hpre). reflexivity.
    + intros Hname ->. rewrite (or_else_unset _ _ Hname). reflexivity.
Qed.

(** ** Adopting an existing server *)

Lemma docker_configs_database (config : Config) server w :
  docker_configs (calls (shouldRunDatabaseCreation config server w)) = [].
Proof.
  unfold shouldRunDatabaseCreation.
  destruct (PluginConfig.database config); reflexivity.
Qed.

Lemma docker_configs_migration (config : Config) server w :
  docker_configs (calls (shouldRunMigration config server w)) = [].
Proof.
  unfold shouldRunMigration.
  destruct (PluginConfig.migrate config) as [m |]; [| reflexivity].
  destruct (String.eqb _ _); reflexivity.
Qed.

Lemma docker_configs_seed (config : Config) server w :
  docker_configs (calls (shouldRunSeed config server w)) = [].
Proof.
  unfold shouldRunSeed. destruct (PluginConfig.seed config); reflexivity.
Qed.

Lemma adoption_server_phase (config : Config) s w :
  ConnectionStrategy_as_specified ->
  PluginConfig.server config = ExistingServer s ->
  setupDatabaseServer (PluginConfig.server config) w
  = mkOutcome (inr (PluginInstance.mk Promise_resolve s)) w
              [Call_ConnectionStrategy_setup s].
Proof.
  intros Hc Hs. rewrite Hs.
  unfold setupDatabaseServer, setupExistingDatabaseServer, call.
  rewrite (Hc s w). reflexivity.
Qed.

(** C8, as amended.  With [ConnectionStrategy] as the spec describes it, a
    configuration whose [server] is an existing server takes the adoption
    path: the server phase calls the connection strategy on the supplied
    server, leaves the world as it was and answers the supplied server with
    a no-op teardown; the handshake is made on that server; the container
    strategy is never called.  When [database] is omitted, the server of a
    fulfilled [setup] is the supplied server and its teardown is a no-op.
    When [database] is configured, the server of the result is the one the
    database strategy returned and the teardown behaves as the database
    teardown. *)
Theorem adoption_wraps_the_supplied_server (config : Config) s w :
  ConnectionStrategy_as_specified ->
  PluginConfig.server config = ExistingServer s ->
  setupDatabaseServer (PluginConfig.server config) w
  = mkOutcome (inr (PluginInstance.mk Promise_resolve s)) w
              [Call_ConnectionStrategy_setup s]
  /\ (exists rest,
         calls (setup config w)
         = Call_ConnectionStrategy_setup s :: Call_Server_init s :: rest)
  /\ docker_configs (calls (setup config w)) = []
  /\ (forall instance,
         result (setup config w) = inr instance ->
         (PluginConfig.database config = None ->
          PluginResult.server (PluginInstance.output instance) = s
          /\ no_op (PluginInstance.teardown instance))
         /\ (forall d,
                PluginConfig.database config = Some d ->
                exists db,
                  fst (DatabaseStrategy_run d s (snd (Server_init s w)))
                  = inr db
                  /\ PluginResult.server (PluginInstance.output instance)
                     = DatabaseOutput.server db
                  /\ forall w0,
                      PluginInstance.teardown instance w0
                      = DatabaseOutput.teardown db w0)).
Proof.
  intros Hc Hs.
  pose proof (adoption_server_phase config s w Hc Hs) as Ho1.
  split; [exact Ho1 |]. split; [| split].
  - destruct (setup_runs config w) as
      [ e o1 H1 Hrun | srv e o1 o2 H1 H2 Hrun | srv e o1 o2 o3 H1 H2 H3 Hrun
      | srv db e o1 o2 o3 o4 H1 H2 H3 H4 Hrun
      | srv db mig e o1 o2 o3 o4 o5 H1 H2 H3 H4 H5 Hrun
      | srv db mig sd o1 o2 o3 o4 o5 H1 H2 H3 H4 H5 Hrun ];
      expose_outcomes; rewrite Hrun; rewrite Ho1 in *; cbn [result] in H1;
      try discriminate H1; injection H1 as <-; cbn [calls world];
      eexists; reflexivity.
  - destruct (setup_runs config w) as
      [ e o1 H1 Hrun | srv e o1 o2 H1 H2 Hrun | srv e o1 o2 o3 H1 H2 H3 Hrun
      | srv db e o1 o2 o3 o4 H1 H2 H3 H4 Hrun
      | srv db mig e o1 o2 o3 o4 o5 H1 H2 H3 H4 H5 Hrun
      | srv db mig sd o1 o2 o3 o4 o5 H1 H2 H3 H4 H5 Hrun ];
      expose_outcomes; rewrite Hrun; cbn [calls];
      rewrite ?docker_configs_app, ?docker_configs_database,
        ?docker_configs_migration, ?docker_configs_seed, Ho1;
      reflexivity.
  - intros instance H. apply setup_fulfilled_inv in H.
    destruct H as (srv & db & mig & sd & H). cbv zeta in H.
    destruct H as (H1 & H2 & H3 & _ & _ & -> & _).
    rewrite Ho1 in *. cbn [result world] in *. injection H1 as <-.
    cbn [PluginInstance.output PluginInstance.teardown PluginResult.server]
      in *.
    unfold shouldRunDatabaseCreation in H3. split.
    + intros Hnone. rewrite Hnone in H3. cbn in H3. injection H3 as <-.
      split; [reflexivity |]. intros w0. reflexivity.
    + intros d Hd. rewrite Hd in H3. cbn in H3. exists db.
      split; [exact H3 |]. split; [reflexivity |].
      intros w0. rewrite buildTeardown_pair.
      destruct (DatabaseOutput.teardown db w0) as [[e | []] w1]; reflexivity.
Qed.

End Properties.

(** * Scenarios over the stub collaborators *)

Section Scenarios.

#[local] Existing Instance Stub.externals.

(** C1: with the container started and the database created, the second
    migration file fails; [setup] rejects with its error and the caller is
    left without a teardown, while the journal shows the container and the
    database still there. *)
Lemma teardown_lost_when_migration_throws :
  result (setup Stub.broken Stub.fresh)
  = inl (mkError "002_posts.sql: syntax error")
  /\ Stub.journal (world (setup Stub.broken Stub.fresh))
     = ["start postgres-k3x9 postgres:latest";
        "connect postgres-k3x9/postgres-k3x9";
        "create database custom-db on postgres-k3x9";
        "apply 001_users.sql to postgres-k3x9/custom-db"]
  /\ caller_teardown (setup Stub.broken Stub.fresh) = None
  /\ ~ teardown_reaches_caller Stub.broken Stub.fresh.
Proof.
  repeat split.
  intros H. unfold teardown_reaches_caller in H.
  edestruct H as [_ [t Ht]]; [reflexivity | reflexivity | reflexivity
                             | reflexivity |].
  discriminate Ht.
Qed.

Lemma migration_failure_rejects_setup_witness :
  result (setup Stub.broken Stub.fresh)
  = inl (mkError "002_posts.sql: syntax error")
  /\ caller_teardown (setup Stub.broken Stub.fresh) = None.
Proof.
  edestruct (migration_failure_rejects_setup Stub.broken Stub.fresh)
    as (Hr & _ & _ & Ht);
    [reflexivity | reflexivity | reflexivity | reflexivity |].
  split; [exact Hr | exact Ht].
Defined.

(** C2: the first release action throws; the composite rejects at once and
    the container is never stopped, whereas running every action would have
    stopped it. *)
Lemma later_teardown_skipped_after_rejection :
  buildTeardown Stub.failing_then_stop Stub.fresh
  = (inl (mkError "drop failed"), Stub.fresh)
  /\ Stub.journal (run_each Stub.failing_then_stop Stub.fresh)
     = ["stop postgres-k3x9"]
  /\ ~ runs_every_teardown Stub.failing_then_stop Stub.fresh.
Proof.
  repeat split. unfold runs_every_teardown. cbn. discriminate.
Qed.

(** The same through [setup]: the database cannot be dropped, so the
    teardown [setup] returned rejects and leaves the container running. *)
Example locked_database_leaves_container_running :
  exists instance,
    result (setup Stub.locked Stub.fresh) = inr instance
    /\ PluginInstance.teardown instance (world (setup Stub.locked Stub.fresh))
       = (inl (mkError "database is being accessed by other users"),
          world (setup Stub.locked Stub.fresh))
    /\ Stub.journal (world (setup Stub.locked Stub.fresh))
       = ["start postgres-k3x9 postgres:latest";
          "connect postgres-k3x9/postgres-k3x9";
          "create database locked-db on postgres-k3x9"].
Proof.
  eexists. split; [reflexivity |]. split; reflexivity.
Qed.

Lemma buildTeardown_stops_at_first_rejection_witness :
  buildTeardown ([Stub.stop "a"] ++ Stub.drop_fails :: [Stub.stop "b"])
                Stub.fresh
  = (inl (mkError "drop failed"), Stub.note "stop a" Stub.fresh)
  /\ Stub.note "stop a" Stub.fresh = run_each [Stub.stop "a"] Stub.fresh.
Proof.
  apply (proj1 buildTeardown_stops_at_first_rejection
               [Stub.stop "a"] [Stub.stop "b"] Stub.drop_fails Stub.fresh);
    reflexivity.
Defined.

(** C3 *)
Lemma unknown_strategy_rejects_witness :
  unknown_server_strategy Stub.podman
  /\ result (setup Stub.podman Stub.fresh)
     = inl (mkError "Unknown strategy: PODMAN")
  /\ phases (calls (setup Stub.podman Stub.fresh)) = [].
Proof.
  assert (Hu : unknown_server_strategy Stub.podman).
  { eexists. split; [reflexivity | discriminate]. }
  split; [exact Hu |].
  destruct (unknown_strategy_rejects Stub.podman Stub.fresh (or_introl Hu))
    as (e & Hr & _ & _ & Hs & _).
  destruct (Hs _ eq_refl ltac:(discriminate)) as [-> Hp].
  split; [exact Hr | exact Hp].
Defined.

(** An unknown migration tag: the container was started and is left
    running, the seed was not run. *)
Example unknown_migration_strategy_scenario :
  result (setup Stub.knex Stub.fresh)
  = inl (mkError "Unknown migration strategy: KNEX")
  /\ Stub.journal (world (setup Stub.knex Stub.fresh))
     = ["start postgres-k3x9 postgres:latest";
        "connect postgres-k3x9/postgres-k3x9"].
Proof. split; reflexivity. Qed.

(** C4 *)
Lemma omitted_phase_gives_empty_results_witness :
  PluginConfig.migrate Stub.adopt = None
  /\ PluginConfig.seed Stub.adopt = None
  /\ exists instance,
      result (setup Stub.adopt Stub.fresh) = inr instance
      /\ PluginResult.migrate (PluginInstance.output instance)
         = MigrationOutput.mk []
      /\ PluginResult.seed (PluginInstance.output instance)
         = SeedOutput.mk []
      /\ existsb is_migration_call (calls (setup Stub.adopt Stub.fresh))
         = false.
Proof.
  split; [reflexivity |]. split; [reflexivity |].
  destruct (omitted_phase_gives_empty_results Stub.adopt) as [Hm Hs].
  destruct (Hm eq_refl) as (_ & _ & Hmr).
  destruct (Hs eq_refl) as (_ & _ & Hsr).
  eexists. split; [reflexivity |].
  split; [apply (Hmr Stub.fresh); reflexivity |].
  split; [apply (Hsr Stub.fresh); reflexivity | reflexivity].
Defined.

(** C5 *)
Lemma database_omitted_passes_server_through_witness :
  PluginConfig.database Stub.adopt = None
  /\ exists db,
      shouldRunDatabaseCreation Stub.adopt Stub.existing Stub.fresh
      = mkOutcome (inr db) Stub.fresh []
      /\ DatabaseOutput.server db = Stub.existing
      /\ no_op (DatabaseOutput.teardown db).
Proof.
  split; [reflexivity |].
  apply (database_omitted_passes_server_through
           Stub.adopt Stub.existing Stub.fresh eq_refl).
Defined.

(** C6 *)
Lemma composite_teardown_database_then_server_witness :
  exists instance,
    result (setup Stub.full Stub.fresh) = inr instance
    /\ exists (srv : PluginInstance.t World Server)
              (db : DatabaseOutput.t World Server),
        PluginInstance.teardown instance
        = buildTeardown [DatabaseOutput.teardown db;
                         PluginInstance.teardown srv].
Proof.
  eexists. split; [reflexivity |].
  destruct (composite_teardown_database_then_server
              Stub.full Stub.fresh _ eq_refl) as (srv & db & H).
  cbv zeta in H. destruct H as (_ & _ & _ & Ht & _).
  exists srv, db. exact Ht.
Defined.

(** The journal of the whole lifecycle: the database is dropped before the
    container is stopped. *)
Example full_lifecycle_journal :
  exists instance,
    result (setup Stub.full Stub.fresh) = inr instance
    /\ Stub.journal
         (snd (PluginInstance.teardown instance
                 (world (setup Stub.full Stub.fresh))))
       = ["start postgres-k3x9 postgres:latest";
          "connect postgres-k3x9/postgres-k3x9";
          "create database custom-db on postgres-k3x9";
          "apply 001_users.sql to postgres-k3x9/custom-db";
          "apply 002_posts.sql to postgres-k3x9/custom-db";
          "insert into User"; "insert into Post";
          "drop database custom-db"; "stop postgres-k3x9"].
Proof. eexists. split; reflexivity. Qed.

(** C7: an empty [databaseName] is a specified field, and it is not used as
    given. *)
Lemma empty_database_name_not_used_as_given :
  exists dc,
    docker_configs (calls (setupNewDatabaseServer Stub.unnamed Stub.fresh))
    = [dc]
    /\ ServerConfig.databaseName Stub.unnamed = Some ""
    /\ DockerServerStrategyConfig.database dc = "postgres-k3x9"
    /\ ~ specified_fields_used_as_given Stub.unnamed dc.
Proof.
  eexists. split; [reflexivity |]. split; [reflexivity |].
  split; [reflexivity |].
  intros (_ & _ & _ & H & _). specialize (H "" eq_refl). discriminate H.
Qed.

Lemma docker_config_defaults_witness :
  ServerConfig.strategy Stub.docker = ServerStrategy_DOCKER
  /\ exists dc,
      docker_configs (calls (setupNewDatabaseServer Stub.docker Stub.fresh))
      = [dc]
      /\ DockerServerStrategyConfig.port dc = 0%Z
      /\ DockerServerStrategyConfig.user dc = "u7qa"
      /\ DockerServerStrategyConfig.password dc = "p5zz"
      /\ DockerServerStrategyConfig.database dc = "postgres-k3x9"
      /\ DockerServerStrategyConfig.serverName dc = "postgres-k3x9"
      /\ DockerServerStrategyConfig.version dc = "latest".
Proof.
  split; [reflexivity |].
  destruct (docker_config_defaults Stub.docker Stub.fresh eq_refl)
    as (dc & Hdc & Hport & _ & Huser & _ & Hpass & _ & _ & _ & Hdb & _
        & Hname & Hver & _).
  exists dc. split; [exact Hdc |].
  split; [exact (Hport eq_refl) |].
  split; [exact (Huser eq_refl) |].
  split; [exact (Hpass eq_refl) |].
  split; [exact (Hdb (or_introl eq_refl) (or_introl eq_refl)) |].
  split; [exact (Hname (or_introl eq_refl)) |].
  exact (Hver (or_introl eq_refl)).
Defined.

(** A database name that is given makes the database name prefix idle. *)
Example prefix_idle_when_name_given :
  docker_configs
    (calls (setupNewDatabaseServer
              (ServerConfig.mk "DOCKER" None None None
                               (Some "shop") (Some "ignored") None None)
              Stub.fresh))
  = [DockerServerStrategyConfig.mk "postgres-k3x9" 0 "u7qa" "p5zz" "shop"
                                   "latest"].
Proof. reflexivity. Qed.

(** C8: an existing server with a [database] request: the server of the
    result is bound to the new database, not the supplied one, and invoking
    the teardown drops that database. *)
Lemma adoption_with_database_returns_another_server :
  exists instance,
    result (setup Stub.adopt_custom Stub.fresh) = inr instance
    /\ Stub.database (PluginResult.server (PluginInstance.output instance))
       = "custom-db"
    /\ Stub.database Stub.existing = "database"
    /\ Stub.journal
         (snd (PluginInstance.teardown instance
                 (world (setup Stub.adopt_custom Stub.fresh))))
       = ["connect serverName/database";
          "create database custom-db on serverName";
          "drop database custom-db"]
    /\ ~ adoption_keeps_supplied_server Stub.adopt_custom Stub.fresh.
Proof.
  eexists. split; [reflexivity |]. split; [reflexivity |].
  split; [reflexivity |]. split; [reflexivity |].
  intros H. destruct (H _ _ eq_refl eq_refl) as [Hs _]. discriminate Hs.
Qed.

Lemma adoption_wraps_the_supplied_server_witness :
  ConnectionStrategy_as_specified
  /\ PluginConfig.server Stub.adopt = ExistingServer Stub.existing
  /\ exists instance,
      result (setup Stub.adopt Stub.fresh) = inr instance
      /\ PluginResult.server (PluginInstance.output instance) = Stub.existing
      /\ no_op (PluginInstance.teardown instance)
      /\ docker_configs (calls (setup Stub.adopt Stub.fresh)) = [].
Proof.
  split; [intros s w; reflexivity |]. split; [reflexivity |].
  destruct (adoption_wraps_the_supplied_server
              Stub.adopt Stub.existing Stub.fresh
              (fun s w => eq_refl) eq_refl) as (_ & _ & Hd & Hi).
  eexists. split; [reflexivity |].
  destruct (Hi _ eq_refl) as [Hnone _].
  destruct (Hnone eq_refl) as [Hs Hn].
  split; [exact Hs |]. split; [exact Hn | exact Hd].
Defined.

(** C9 *)
Lemma phases_run_in_pipeline_order_witness :
  phases (calls (setup Stub.full Stub.fresh))
  = [ServerSetup; ServerInit; DatabaseSetup; MigrationRun; SeedRun]
  /\ exists rest,
      [ServerSetup; ServerInit; DatabaseSetup; MigrationRun; SeedRun]
      = (phases (calls (setup Stub.broken Stub.fresh)) ++ rest)%list.
Proof.
  split.
  - apply (proj2 (proj2 (phases_run_in_pipeline_order Stub.full Stub.fresh))
                 _ eq_refl).
  - apply (proj1 (proj2 (phases_run_in_pipeline_order Stub.broken
                                                      Stub.fresh))).
Defined.

(** C10 *)
Lemma empty_string_and_zero_asymmetry_witness :
  exists dc,
    calls (setupNewDatabaseServer
             (ServerConfig.mk "DOCKER" (Some 0%Z) (Some "") (Some "")
                              (Some "") (Some "") (Some "") (Some ""))
             Stub.fresh)
    = [Call_Math_random; Call_DockerServerStrategy_setup dc]
    /\ DockerServerStrategyConfig.user dc = ""
    /\ DockerServerStrategyConfig.password dc = ""
    /\ DockerServerStrategyConfig.port dc = 0%Z
    /\ DockerServerStrategyConfig.database dc = "postgres-k3x9"
    /\ DockerServerStrategyConfig.serverName dc = "postgres-k3x9"
    /\ DockerServerStrategyConfig.version dc = "latest".
Proof.
  destruct (empty_string_and_zero_asymmetry
              "DOCKER" (Some 0%Z) (Some "") (Some "")
              (Some "") (Some "") (Some "") (Some "") Stub.fresh)
    as (_ & _ & _ & _ & H).
  destruct (H eq_refl)
    as (dc & _ & Hu & Hp & Hport & Hcalls & _ & Hdb & _ & Hname & Hver).
  exists dc. split; [exact (Hcalls eq_refl eq_refl) |].
  split; [exact (Hu eq_refl) |]. split; [exact (Hp eq_refl) |].
  split; [exact (Hport eq_refl) |].
  split; [exact (Hdb eq_refl (or_intror eq_refl)) |].
  split; [exact (Hname eq_refl) | exact (Hver eq_refl)].
Defined.

(** The empty strings give the defaults. *)
Example empty_strings_give_defaults :
  docker_configs
    (calls (setupNewDatabaseServer
              (ServerConfig.mk "DOCKER" (Some 0%Z) (Some "") (Some "")
                               (Some "") (Some "") (Some "") (Some ""))
              Stub.fresh))
  = [DockerServerStrategyConfig.mk "postgres-k3x9" 0 "" "" "postgres-k3x9"
                                   "latest"].
Proof. reflexivity. Qed.

End Scenarios.

(** * Further properties of the orchestration core *)

Section CallsAndResults.

Context {X : Externals}.

(** X1.  What a fulfilled [setup] asked of its collaborators, with the
    arguments: after the calls of the server phase, the handshake on the
    server that phase returned; the database strategy, when [database] is
    configured, with that configuration and that same server; the migration
    strategy and the seed strategy, when configured, each with its
    configuration and the connection of the server the database phase
    returned, which is the server phase's own server when [database] is
    omitted. *)
Theorem fulfilled_setup_calls (config : Config) w instance :
  result (setup config w) = inr instance ->
  exists srv db,
    let o1 := setupDatabaseServer (PluginConfig.server config) w in
    let o2 := init (PluginInstance.output srv) (world o1) in
    let o3 :=
      shouldRunDatabaseCreation config (PluginInstance.output srv) (world o2) in
    result o1 = inr srv
    /\ result o3 = inr db
    /\ (PluginConfig.database config = None ->
        DatabaseOutput.server db = PluginInstance.output srv)
    /\ calls (setup config w)
       = (calls o1
            ++ Call_Server_init (PluginInstance.output srv)
            :: match PluginConfig.database config with
               | Some d =>
                   [Call_DatabaseStrategy_run d (PluginInstance.output srv)]
               | None => []
               end
            ++ match PluginConfig.migrate config with
               | Some m =>
                   [Call_SqlMigrationStrategy_run
                      m (connection (DatabaseOutput.server db))]
               | None => []
               end
            ++ match PluginConfig.seed config with
               | Some sd =>
                   [Call_SeedStrategy_run
                      sd (connection (DatabaseOutput.server db))]
               | None => []
               end)%list.
Proof.
  intros H. apply setup_fulfilled_inv in H.
  destruct H as (srv & db & mig & sd & H). cbv zeta in H.
  destruct H as (H1 & H2 & H3 & H4 & H5 & _ & _ & Hc).
  exists srv, db. cbv zeta. split; [exact H1 |]. split; [exact H3 |]. split.
  - intros Hnone. unfold shouldRunDatabaseCreation in H3.
    rewrite Hnone in H3. cbn in H3. injection H3 as <-. reflexivity.
  - rewrite Hc. f_equal. cbn [init call calls app]. f_equal.
    f_equal; [| f_equal].
    + unfold shouldRunDatabaseCreation.
      destruct (PluginConfig.database config); reflexivity.
    + revert H4. unfold shouldRunMigration.
      destruct (PluginConfig.migrate config) as [m |]; [| reflexivity].
      destruct (String.eqb _ _); [reflexivity | discriminate].
    + unfold shouldRunSeed.
      destruct (PluginConfig.seed config); reflexivity.
Qed.

(** X2.  The result of a fulfilled [setup] carries what the strategies
    answered, unchanged: its server is the one the database phase returned,
    its [migrate] is the output the SQL migration strategy was fulfilled
    with, and its [seed] the output of the seed strategy, run in the world
    the migration left. *)
Theorem fulfilled_setup_result (config : Config) w instance :
  result (setup config w) = inr instance ->
  exists srv db,
    let o1 := setupDatabaseServer (PluginConfig.server config) w in
    let o2 := init (PluginInstance.output srv) (world o1) in
    let o3 :=
      shouldRunDatabaseCreation config (PluginInstance.output srv) (world o2) in
    let o4 := shouldRunMigration config (DatabaseOutput.server db) (world o3) in
    result o1 = inr srv
    /\ result o3 = inr db
    /\ PluginResult.server (PluginInstance.output instance)
       = DatabaseOutput.server db
    /\ (forall m,
           PluginConfig.migrate config = Some m ->
           MigrationConfig.strategy m = MigrationStrategy_SQL
           /\ fst (SqlMigrationStrategy_run
                     m (connection (DatabaseOutput.server db)) (world o3))
              = inr (PluginResult.migrate (PluginInstance.output instance)))
    /\ (forall sd,
           PluginConfig.seed config = Some sd ->
           SeedStrategy_run sd (connection (DatabaseOutput.server db))
                            (world o4)
           = (inr (PluginResult.seed (PluginInstance.output instance)),
              world (setup config w))).
Proof.
  intros H. apply setup_fulfilled_inv in H.
  destruct H as (srv & db & mig & sd & H). cbv zeta in H.
  destruct H as (H1 & H2 & H3 & H4 & H5 & -> & Hw & _).
  exists srv, db. cbv zeta. split; [exact H1 |]. split; [exact H3 |].
  split; [reflexivity |]. split.
  - intros m Hm. unfold shouldRunMigration in H4. rewrite Hm in H4.
    destruct (String.eqb _ _) eqn:Htag; [| discriminate H4].
    apply String.eqb_eq in Htag. split; [exact Htag | exact H4].
  - intros sd' Hsd. rewrite Hw. unfold shouldRunSeed in *.
    rewrite Hsd in *. cbn [call result world fst snd] in *.
    cbn [PluginInstance.output PluginResult.seed].
    rewrite <- H5. apply surjective_pairing.
Qed.

(** X3.  A handshake that rejects is fatal: when the server phase is
    fulfilled and [init()] rejects with [e], [setup] rejects with [e] in the
    world the handshake left; the handshake is the last call made, so
    neither the database, the migration nor the seed strategy is called. *)
Theorem handshake_failure_rejects_setup (config : Config) w srv e :
  let o1 := setupDatabaseServer (PluginConfig.server config) w in
  let o2 := init (PluginInstance.output srv) (world o1) in
  result o1 = inr srv ->
  result o2 = inl e ->
  result (setup config w) = inl e
  /\ world (setup config w) = world o2
  /\ calls (setup config w)
     = (calls o1 ++ [Call_Server_init (PluginInstance.output srv)])%list
  /\ phases (calls (setup config w)) = [ServerSetup; ServerInit].
Proof.
  cbv zeta. intros H1 H2.
  assert (Hrun : setup config w
                 = mkOutcome (inl e)
                     (world (init (PluginInstance.output srv)
                        (world (setupDatabaseServer
                                  (PluginConfig.server config) w))))
                     (calls (setupDatabaseServer
                               (PluginConfig.server config) w)
                        ++ [Call_Server_init (PluginInstance.output srv)])).
  { unfold setup. rewrite (bind_fulfilled _ _ _ _ H1).
    rewrite (bind_rejected _ _ _ _ H2). reflexivity. }
  rewrite Hrun. cbn [result world calls]. repeat split.
  rewrite phases_app, (server_phases_fulfilled _ _ _ H1). reflexivity.
Qed.

(** ** Random draws *)

Lemma random_draws_app (xs ys : list Call) :
  random_draws (xs ++ ys) = random_draws xs + random_draws ys.
Proof.
  induction xs as [| c xs IH]; [reflexivity |].
  destruct c; cbn; rewrite ?IH; reflexivity.
Qed.

Lemma random_draws_new_server (c : ServerConfig.t) w :
  random_draws (calls (setupNewDatabaseServer c w))
  = 1 + missing (ServerConfig.user c) + missing (ServerConfig.password c).
Proof.
  rewrite setupNewDatabaseServer_run. cbv zeta.
  destruct (String.eqb _ _); cbn [calls];
    destruct (ServerConfig.user c), (ServerConfig.password c); reflexivity.
Qed.

Lemma random_draws_database (config : Config) server w :
  random_draws (calls (shouldRunDatabaseCreation config server w)) = 0.
Proof.
  unfold shouldRunDatabaseCreation.
  destruct (PluginConfig.database config); reflexivity.
Qed.

Lemma random_draws_migration (config : Config) server w :
  random_draws (calls (shouldRunMigration config server w)) = 0.
Proof.
  unfold shouldRunMigration.
  destruct (PluginConfig.migrate config) as [m |]; [| reflexivity].
  destruct (String.eqb _ _); reflexivity.
Qed.

Lemma random_draws_seed (config : Config) server w :
  random_draws (calls (shouldRunSeed config server w)) = 0.
Proof.
  unfold shouldRunSeed. destruct (PluginConfig.seed config); reflexivity.
Qed.

(** X4.  Every run of [setup], fulfilled or not, calls [Math.random()]
    exactly once for the suffix, once more when [user] is not given and once
    more when [password] is not given, if it provisions a new server, and
    never if it adopts an existing one.  The draws are made before the
    strategy tag is looked at: a request with an unknown tag has drawn as
    many, and its rejection leaves the random source advanced by them. *)
Theorem setup_random_draws (config : Config) w :
  (forall s,
      PluginConfig.server config = ExistingServer s ->
      random_draws (calls (setup config w)) = 0)
  /\ (forall c,
         PluginConfig.server config = NewServer c ->
         random_draws (calls (setup config w))
         = 1 + missing (ServerConfig.user c)
           + missing (ServerConfig.password c))
  /\ (forall c,
         PluginConfig.server config = NewServer c ->
         ServerConfig.strategy c <> ServerStrategy_DOCKER ->
         world (setup config w)
         = snd (taken_or_drawn (ServerConfig.password c)
                  (snd (taken_or_drawn (ServerConfig.user c)
                          (snd (Math_random_string w)))))).
Proof.
  assert (Hall : random_draws (calls (setup config w))
                 = random_draws
                     (calls (setupDatabaseServer
                               (PluginConfig.server config) w))).
  { destruct (setup_runs config w) as
      [ e o1 H1 Hrun | srv e o1 o2 H1 H2 Hrun | srv e o1 o2 o3 H1 H2 H3 Hrun
      | srv db e o1 o2 o3 o4 H1 H2 H3 H4 Hrun
      | srv db mig e o1 o2 o3 o4 o5 H1 H2 H3 H4 H5 Hrun
      | srv db mig sd o1 o2 o3 o4 o5 H1 H2 H3 H4 H5 Hrun ];
      repeat match goal with o := _ : Outcome _ |- _ => subst o end;
      rewrite Hrun; cbn [calls];
      rewrite ?random_draws_app, ?random_draws_database,
        ?random_draws_migration, ?random_draws_seed;
      cbn [init call calls random_draws]; rewrite ?Nat.add_0_r;
      reflexivity. }
  split; [| split].
  - intros s Hs. rewrite Hall, Hs. reflexivity.
  - intros c Hs. rewrite Hall, Hs. apply random_draws_new_server.
  - intros c Hs Htag. apply String.eqb_neq in Htag.
    assert (H1 : setupDatabaseServer (PluginConfig.server config) w
                 = setupNewDatabaseServer c w) by (rewrite Hs; reflexivity).
    rewrite setupNewDatabaseServer_run in H1. cbv zeta in H1.
    rewrite Htag in H1.
    unfold setup. rewrite bind_rejected with (e := mkError
      ("Unknown strategy: " ++ ServerConfig.strategy c));
      rewrite H1; reflexivity.
Qed.

(** ** Composing and repeating teardowns *)

(** X5.  Composite teardowns compose: the composite of a concatenation runs
    the composite of the first list and then, once that is fulfilled, the
    composite of the second in the world the first left; a rejection in the
    first list ends it.  So nesting composites, as in
    [#buildTeardown([#buildTeardown(xs), #buildTeardown(ys)])], runs the
    same actions as the flat list. *)
Theorem buildTeardown_concat (xs ys : list Teardown) w :
  buildTeardown (xs ++ ys) w
  = and_then (buildTeardown xs) (buildTeardown ys) w
  /\ buildTeardown [buildTeardown xs; buildTeardown ys] w
     = buildTeardown (xs ++ ys) w.
Proof.
  assert (H : buildTeardown (xs ++ ys) w
              = and_then (buildTeardown xs) (buildTeardown ys) w).
  { unfold and_then. revert w.
    induction xs as [| t xs IH]; intros w; cbn; [reflexivity |].
    destruct (t w) as [[e | u] w1]; [reflexivity | apply IH]. }
  split; [exact H |].
  rewrite buildTeardown_pair, H. reflexivity.
Qed.

(** X6.  The composite teardown keeps no record of having run: invoked a
    second time, in the world its first, fulfilled, invocation left, it runs
    every action again, as the composite of the list taken twice does. *)
Theorem teardown_runs_again_when_invoked_twice (ts : list Teardown) w w1 :
  buildTeardown ts w = (inr tt, w1) ->
  buildTeardown ts w1 = buildTeardown (ts ++ ts) w
  /\ snd (buildTeardown ts w1) = snd (buildTeardown (ts ++ ts) w)
  /\ w1 = run_each ts w.
Proof.
  intros H. rewrite (buildTeardown_app _ _ _ _ H).
  split; [reflexivity |]. split; [reflexivity |].
  exact (buildTeardown_fulfilled _ _ _ H).
Qed.

End CallsAndResults.

(** * Scenarios for the further properties *)

Section MoreScenarios.

Lemma fulfilled_setup_calls_witness :
  exists instance,
    result (setup Stub.full Stub.fresh) = inr instance
    /\ length (calls (setup Stub.full Stub.fresh)) = 8
    /\ existsb is_seed_call (calls (setup Stub.full Stub.fresh)) = true.
Proof.
  destruct (fulfilled_setup_calls Stub.full Stub.fresh _ eq_refl)
    as (srv & db & H). cbv zeta in H. destruct H as (_ & _ & _ & Hc).
  eexists. split; [reflexivity |]. rewrite Hc. split; reflexivity.
Defined.

Lemma fulfilled_setup_result_witness :
  exists instance,
    result (setup Stub.full Stub.fresh) = inr instance
    /\ Stub.database (PluginResult.server (PluginInstance.output instance))
       = "custom-db"
    /\ PluginResult.migrate (PluginInstance.output instance)
       = MigrationOutput.mk ["001_users.sql"; "002_posts.sql"].
Proof.
  destruct (fulfilled_setup_result Stub.full Stub.fresh _ eq_refl)
    as (srv & db & H). cbv zeta in H. destruct H as (_ & _ & Hs & _).
  eexists. split; [reflexivity |]. split; reflexivity.
Defined.

Lemma handshake_failure_rejects_setup_witness :
  result (setup Unreachable.config Unreachable.fresh)
  = inl (mkError "connection refused")
  /\ Stub.journal (world (setup Unreachable.config Unreachable.fresh))
     = ["start postgres-k3x9 postgres:latest";
        "connect postgres-k3x9/postgres-k3x9"]
  /\ phases (calls (setup Unreachable.config Unreachable.fresh))
     = [ServerSetup; ServerInit].
Proof.
  edestruct (handshake_failure_rejects_setup
               Unreachable.config Unreachable.fresh)
    as (Hr & Hw & _ & Hp); [reflexivity | reflexivity |].
  split; [exact Hr |]. split; [rewrite Hw; reflexivity | exact Hp].
Defined.

Lemma setup_random_draws_witness :
  random_draws (calls (setup Stub.adopt_custom Stub.fresh)) = 0
  /\ random_draws (calls (setup Stub.broken Stub.fresh)) = 3
  /\ Stub.entropy (world (setup Stub.podman Stub.fresh)) = [].
Proof.
  split; [| split].
  - apply (proj1 (setup_random_draws Stub.adopt_custom Stub.fresh)
                 Stub.existing eq_refl).
  - apply (proj1 (proj2 (setup_random_draws Stub.broken Stub.fresh))
                 Stub.docker eq_refl).
  - rewrite (proj2 (proj2 (setup_random_draws Stub.podman Stub.fresh))
                   _ eq_refl ltac:(discriminate)).
    reflexivity.
Defined.

Lemma buildTeardown_concat_witness :
  Stub.journal
    (snd (buildTeardown
            [buildTeardown [Stub.stop "a"; Stub.stop "b"];
             buildTeardown [Stub.stop "c"]]
            Stub.fresh))
  = ["stop a"; "stop b"; "stop c"].
Proof.
  rewrite (proj2 (buildTeardown_concat
                    [Stub.stop "a"; Stub.stop "b"] [Stub.stop "c"]
                    Stub.fresh)).
  reflexivity.
Defined.

Lemma teardown_runs_again_when_invoked_twice_witness :
  Stub.journal
    (snd (buildTeardown [Stub.stop "a"; Stub.stop "b"]
            (Stub.note "stop b" (Stub.note "stop a" Stub.fresh))))
  = ["stop a"; "stop b"; "stop a"; "stop b"].
Proof.
  exact (f_equal Stub.journal
           (proj1 (proj2 (teardown_runs_again_when_invoked_twice
                            [Stub.stop "a"; Stub.stop "b"] Stub.fresh
                            (Stub.note "stop b" (Stub.note "stop a" Stub.fresh))
                            eq_refl)))).
Defined.

End MoreScenarios.

(** * Properties of the deprecation check *)

Section DeprecationProperties.

Import Deprecation.

Context {H : Host}.

(** ** Loops *)

(** What holds before a loop and is kept by every round that goes on holds
    after the loop; what every round that leaves the script establishes
    holds when the loop leaves it. *)
Lemma each_invariant {A : Type} (body : A -> State -> option Ended * State)
  (P : State -> Prop) (Q : Ended -> State -> Prop) (xs : list A) :
  (forall a s,
      In a xs -> P s ->
      match body a s with
      | (None, s') => P s'
      | (Some ended, s') => Q ended s'
      end) ->
  forall s,
    P s ->
    match each body xs s with
    | (None, s') => P s'
    | (Some ended, s') => Q ended s'
    end.
Proof.
  induction xs as [| x xs IH]; intros Hbody s Hs; cbn [each]; [exact Hs |].
  pose proof (Hbody x s (or_introl eq_refl) Hs) as Hx.
  destruct (body x s) as [[ended |] s1]; [exact Hx |].
  apply IH; [| exact Hx].
  intros a s0 Ha. apply Hbody. right. exact Ha.
Qed.

Lemma starts_refl (xs : list Line) : starts xs xs.
Proof. exists []. symmetry. apply app_nil_r. Qed.

Lemma starts_trans (xs ys zs : list Line) :
  starts xs ys -> starts ys zs -> starts xs zs.
Proof.
  intros [r1 ->] [r2 ->]. exists (r1 ++ r2)%list. symmetry. apply app_assoc.
Qed.

Lemma starts_snoc (xs : list Line) (l : Line) : starts xs (xs ++ [l]).
Proof. exists [l]. reflexivity. Qed.

(** Takes a run of [check_tag] apart, one case per path through it. *)
Ltac tag_cases :=
  unfold check_tag, compare_with_VERSION;
  repeat match goal with
         | |- context [match ?x with _ => _ end] =>
             lazymatch x with
             | context [match _ with _ => _ end] => fail
             | _ => destruct x eqn:?
             end
         end.

(** ** The exit status and the console *)

Lemma check_tag_consistent (ff : bool) path d t s :
  consistent s ->
  match check_tag ff path d t s with
  | (None, s') => consistent s'
  | (Some ended, s') => exits_after_error ended s'
  end.
Proof.
  unfold consistent. intros Hs. tag_cases;
    cbn [exits_after_error console_error console_warn fail shouldFail console];
    rewrite ?existsb_app; cbn [existsb is_error stream];
    rewrite ?Bool.orb_true_r, ?Bool.orb_false_r; auto.
Qed.

Lemma check_file_consistent (ff : bool) f s :
  consistent s ->
  match check_file ff f s with
  | (None, s') => consistent s'
  | (Some ended, s') => exits_after_error ended s'
  end.
Proof.
  intros Hs. unfold check_file. destruct (docs f) as [e | ds]; [exact I |].
  apply each_invariant; [| exact Hs].
  intros d s0 _ Hs0. unfold check_doc.
  destruct (tags d) as [ts |]; [| exact Hs0].
  apply each_invariant; [| exact Hs0].
  intros t s1 _ Hs1. apply check_tag_consistent. exact Hs1.
Qed.

(** X7.  The exit status of the deprecation check tells what is on the
    console: a run that completes wrote no [console.error] line (warnings
    only), and a run that ends in [Deno.exit] exits with 1 after at least one
    [console.error] line, with or without [--fail-fast]. *)
Theorem exit_status_matches_console (ff : bool) (files : list File) :
  match fst (main ff files) with
  | Completed => existsb is_error (snd (main ff files)) = false
  | Stopped (Exit code) =>
      code = 1%Z /\ existsb is_error (snd (main ff files)) = true
  | Stopped (Uncaught _) => True
  end.
Proof.
  unfold main.
  pose proof (each_invariant (check_file ff) consistent exits_after_error
                files (fun f s _ => check_file_consistent ff f s)
                (mkState false []) eq_refl) as Hrun.
  destruct (each (check_file ff) files (mkState false []))
    as [[ended |] s]; cbn [fst snd].
  - destruct ended; [exact Hrun | exact I].
  - unfold consistent in Hrun. destruct (shouldFail s); cbn [fst snd];
      auto.
Qed.

(** ** With and without [--fail-fast] *)

Lemma check_tag_agree path d t s :
  shouldFail s = false ->
  agree (check_tag true path d t s) (check_tag false path d t s).
Proof.
  intros Hs. unfold check_tag, compare_with_VERSION. cbv beta iota zeta.
  repeat match goal with
         | |- context [match ?x with _ => _ end] =>
             lazymatch x with
             | context [match _ with _ => _ end] => fail
             | _ => destruct x eqn:?
             end
         end;
    unfold agree, failing;
    cbn [fst snd fail shouldFail console console_error console_warn];
    first [ left; split; [reflexivity | first [exact Hs | exact I]]
          | right; split; [reflexivity |];
            split; [apply starts_refl | reflexivity] ].
Qed.

Lemma check_tag_failing path d t s :
  shouldFail s = true ->
  starts (console s) (console (snd (check_tag false path d t s)))
  /\ failing (check_tag false path d t s).
Proof.
  intros Hs. tag_cases; unfold failing;
    cbn [fst snd fail shouldFail console console_error console_warn];
    auto using starts_refl, starts_snoc.
Qed.

Lemma each_failing {A : Type} (body : A -> State -> option Ended * State)
  (xs : list A) :
  (forall a s,
      shouldFail s = true ->
      starts (console s) (console (snd (body a s))) /\ failing (body a s)) ->
  forall s,
    shouldFail s = true ->
    starts (console s) (console (snd (each body xs s)))
    /\ failing (each body xs s).
Proof.
  intros Hbody. induction xs as [| x xs IH]; intros s Hs; cbn [each].
  - split; [apply starts_refl | exact Hs].
  - destruct (Hbody x s Hs) as [Hc Hf]. unfold failing in Hf.
    destruct (body x s) as [[ended |] s1]; cbn [fst snd] in *.
    + split; [exact Hc | exact Hf].
    + destruct (IH s1 Hf) as [Hc' Hf'].
      split; [exact (starts_trans _ _ _ Hc Hc') | exact Hf'].
Qed.

Lemma each_agree {A : Type} (b1 b0 : A -> State -> option Ended * State)
  (xs : list A) :
  (forall a s, shouldFail s = false -> agree (b1 a s) (b0 a s)) ->
  (forall a s,
      shouldFail s = true ->
      starts (console s) (console (snd (b0 a s))) /\ failing (b0 a s)) ->
  forall s,
    shouldFail s = false -> agree (each b1 xs s) (each b0 xs s).
Proof.
  intros Hagree Hfailing. induction xs as [| x xs IH]; intros s Hs;
    cbn [each].
  - left. split; [reflexivity | exact Hs].
  - destruct (Hagree x s Hs) as [[Heq Hsame] | (Hexit & Hc & Hf)].
    + rewrite <- Heq. destruct (b1 x s) as [[ended |] s1]; cbn [fst] in Hsame.
      * left. split; [reflexivity | exact Hsame].
      * apply IH. exact Hsame.
    + destruct (b1 x s) as [r1 s1]. cbn [fst snd] in *. subst r1.
      right. split; [reflexivity |]. unfold failing in Hf.
      destruct (b0 x s) as [[ended |] s0]; cbn [fst snd] in *.
      * split; [exact Hc | exact Hf].
      * destruct (each_failing b0 xs Hfailing s0 Hf) as [Hc' Hf'].
        split; [exact (starts_trans _ _ _ Hc Hc') | exact Hf'].
Qed.

Lemma check_doc_failing path d s :
  shouldFail s = true ->
  starts (console s) (console (snd (check_doc false path d s)))
  /\ failing (check_doc false path d s).
Proof.
  intros Hs. unfold check_doc. destruct (tags d) as [ts |].
  - apply each_failing; [| exact Hs]. intros t s0. apply check_tag_failing.
  - split; [apply starts_refl | exact Hs].
Qed.

Lemma check_doc_agree path d s :
  shouldFail s = false ->
  agree (check_doc true path d s) (check_doc false path d s).
Proof.
  intros Hs. unfold check_doc. destruct (tags d) as [ts |].
  - apply each_agree; [| | exact Hs].
    + intros t s0. apply check_tag_agree.
    + intros t s0. apply check_tag_failing.
  - left. split; [reflexivity | exact Hs].
Qed.

Lemma check_file_failing f s :
  shouldFail s = true ->
  starts (console s) (console (snd (check_file false f s)))
  /\ failing (check_file false f s).
Proof.
  intros Hs. unfold check_file. destruct (docs f) as [e | ds].
  - split; [apply starts_refl | exact I].
  - apply each_failing; [| exact Hs]. intros d s0. apply check_doc_failing.
Qed.

Lemma check_file_agree f s :
  shouldFail s = false ->
  agree (check_file true f s) (check_file false f s).
Proof.
  intros Hs. unfold check_file. destruct (docs f) as [e | ds].
  - left. split; [reflexivity | exact I].
  - apply each_agree; [| | exact Hs].
    + intros d s0. apply check_doc_agree.
    + intros d s0. apply check_doc_failing.
Qed.

(** X8.  [--fail-fast] changes how much is written, not the verdict.  What
    the run with the flag writes is an initial part of what the run without
    it writes.  When the run with the flag completes, or ends in an uncaught
    exception, the run without it ends the same way with the same console.
    When the run with the flag exits, it exits with 1 and the run without it
    does not complete either.  A run without the flag that completes is the
    run with the flag. *)
Theorem fail_fast_agrees (files : list File) :
  starts (snd (main true files)) (snd (main false files))
  /\ (fst (main true files) = Completed ->
      main false files = main true files)
  /\ (forall e,
         fst (main true files) = Stopped (Uncaught e) ->
         main false files = main true files)
  /\ (forall code,
         fst (main true files) = Stopped (Exit code) ->
         code = 1%Z /\ fst (main false files) <> Completed)
  /\ (fst (main false files) = Completed ->
      main true files = main false files).
Proof.
  unfold main.
  pose proof (each_agree (check_file true) (check_file false) files
                check_file_agree check_file_failing
                (mkState false []) eq_refl) as Hrun.
  destruct Hrun as [[Heq Hsame] | (Hexit & Hc & Hf)].
  - rewrite <- Heq.
    destruct (each (check_file true) files (mkState false []))
      as [[[code | e] |] s]; cbn [fst snd] in *; try contradiction;
      rewrite ?Hsame; cbn [fst snd]; repeat split; intros;
      first [reflexivity | apply starts_refl | congruence].
  - destruct (each (check_file true) files (mkState false [])) as [r1 s1].
    cbn [fst snd] in *. subst r1. unfold failing in Hf.
    destruct (each (check_file false) files (mkState false []))
      as [[[code | e] |] s0]; cbn [fst snd] in *; try contradiction;
      rewrite ?Hf; cbn [fst snd]; repeat split; intros;
      first [assumption | congruence].
Qed.

(** ** Tags the check accepts, tags it rejects *)

Lemma check_tag_after_format (ff : bool) path d t s :
  after_format t ->
  clean s ->
  match check_tag ff path d t s with
  | (None, s') => clean s'
  | (Some ended, s') =>
      never_exits ended s' /\ forall e, ended = Uncaught e -> throwing e t
  end.
Proof.
  unfold clean, never_exits. intros Ht [Hf He].
  destruct Ht as [Hkind | (message & version & Hdoc & Hne & Hafter)].
  - apply String.eqb_neq in Hkind. unfold check_tag. rewrite Hkind. auto.
  - unfold check_tag. rewrite Hdoc.
    destruct message as [| c m]; [contradiction |]. rewrite Hafter.
    destruct (String.eqb_spec (kind t) "deprecated") as [Hkind |]; [| auto].
    destruct (compare_with_VERSION semver_lt version) as [e | []] eqn:Hcmp;
      cbn [console_warn shouldFail console]; rewrite ?existsb_app;
      cbn [existsb is_error stream]; rewrite ?He; auto.
    split; [split; [discriminate | reflexivity] |].
    intros e' [= <-]. split; [exact Hkind |].
    exists (String c m), version. auto.
Qed.

(** X9.  An expired deprecation only fails the check in the [in] format: when
    every [@deprecated] tag carries a text in the [after] format, whatever
    its version, the check writes no [console.error] line and never calls
    [Deno.exit], with or without [--fail-fast].  Such a run completes, unless
    it ends in an uncaught exception; and that exception is the rejection of
    [doc] for one of the files, or what [semver.parse] threw for the version
    of one of the tags or for [VERSION]. *)
Theorem after_format_never_fails (ff : bool) (files : list File) :
  every_tag after_format files ->
  (forall code, fst (main ff files) <> Stopped (Exit code))
  /\ existsb is_error (snd (main ff files)) = false
  /\ (forall e, fst (main ff files) = Stopped (Uncaught e) -> thrown files e)
  /\ ((forall e, ~ thrown files e) -> fst (main ff files) = Completed).
Proof.
  intros Hall. unfold main.
  assert (Hrun : match each (check_file ff) files (mkState false []) with
                 | (None, s') => clean s'
                 | (Some ended, s') =>
                     never_exits ended s'
                     /\ forall e, ended = Uncaught e -> thrown files e
                 end).
  { apply (each_invariant (check_file ff) clean
             (fun ended s' =>
                never_exits ended s'
                /\ forall e, ended = Uncaught e -> thrown files e));
      [| split; reflexivity].
    intros f s Hf Hs. unfold check_file.
    destruct (docs f) as [e | ds] eqn:Hdocs.
    { destruct Hs as [_ He]. split; [split; [discriminate | exact He] |].
      intros e' [= <-]. left. exists f. auto. }
    apply (each_invariant (check_doc ff (path f)) clean
             (fun ended s' =>
                never_exits ended s'
                /\ forall e, ended = Uncaught e -> thrown files e));
      [| exact Hs].
    intros d s0 Hd Hs0. unfold check_doc.
    destruct (tags d) as [ts |] eqn:Htags; [| exact Hs0].
    apply (each_invariant (check_tag ff (path f) d) clean
             (fun ended s' =>
                never_exits ended s'
                /\ forall e, ended = Uncaught e -> thrown files e));
      [| exact Hs0].
    intros t s1 Ht Hs1.
    pose proof (check_tag_after_format ff (path f) d t s1
                  (Hall f ds d ts t Hf Hdocs Hd Htags Ht) Hs1) as Htag.
    destruct (check_tag ff (path f) d t s1) as [[ended |] s2];
      [| exact Htag].
    destruct Htag as [Hne Hthrow]. split; [exact Hne |].
    intros e He. right. exists f, ds, d, ts, t.
    split; [exact Hf |]. split; [exact Hdocs |]. split; [exact Hd |].
    split; [exact Htags |]. split; [exact Ht | exact (Hthrow e He)]. }
  destruct (each (check_file ff) files (mkState false []))
    as [[ended |] s]; cbn [fst snd].
  - destruct Hrun as [[Hne He] Hthrow]. split; [| split; [exact He | split]].
    + intros code Heq. injection Heq as ->. exact (Hne code eq_refl).
    + intros e [= ->]. apply Hthrow. reflexivity.
    + intros Hnone. destruct ended as [code | e].
      * destruct (Hne code eq_refl).
      * destruct (Hnone e (Hthrow e eq_refl)).
  - destruct Hrun as [Hf He]. rewrite Hf. cbn [fst snd].
    split; [discriminate |]. split; [exact He |].
    split; [discriminate | reflexivity].
Qed.

Lemma check_tag_keeps_flag (ff : bool) path d t s :
  shouldFail s = true -> flagged (check_tag ff path d t s).
Proof.
  intros Hs. tag_cases; unfold flagged;
    cbn [fst snd fail shouldFail console_error console_warn]; auto.
Qed.

Lemma check_tag_rejected (ff : bool) path d t s :
  rejected t -> flagged (check_tag ff path d t s).
Proof.
  unfold flagged, rejected, check_tag.
  intros (Hkind & [Hdoc | [Hdoc | (message & Hdoc & Hne & Hafter & Hin)]]);
    rewrite Hkind, Hdoc; cbn [String.eqb Ascii.eqb Bool.eqb];
    try (destruct ff; reflexivity || exact I).
  destruct message as [| c m]; [contradiction |]. rewrite Hafter.
  destruct Hin as [Hin | (version & Hin & Hgt)]; rewrite Hin.
  - destruct ff; reflexivity || exact I.
  - rewrite Hgt. destruct ff; reflexivity || exact I.
Qed.

Lemma each_flagged {A : Type} (body : A -> State -> option Ended * State)
  (bad : A -> Prop) (xs : list A) :
  (forall a s, shouldFail s = true -> flagged (body a s)) ->
  (forall a s, In a xs -> bad a -> flagged (body a s)) ->
  forall s,
    shouldFail s = true \/ (exists a, In a xs /\ bad a) ->
    flagged (each body xs s).
Proof.
  intros Hkeep. induction xs as [| x xs IH]; intros Hbad s Hs; cbn [each].
  - destruct Hs as [Hs | (a & [] & _)]. exact Hs.
  - assert (Hx : shouldFail s = true \/ bad x \/ exists a, In a xs /\ bad a).
    { destruct Hs as [Hs | (a & [<- | Ha] & Hb)]; eauto. }
    assert (Hrest : forall a s0, In a xs -> bad a -> flagged (body a s0)).
    { intros a s0 Ha. apply Hbad. right. exact Ha. }
    destruct Hx as [Hs' | [Hb | Hlater]].
    + pose proof (Hkeep x s Hs') as Hf. unfold flagged in Hf.
      destruct (body x s) as [[ended |] s1]; cbn [fst snd] in *; [exact I |].
      apply IH; auto.
    + pose proof (Hbad x s (or_introl eq_refl) Hb) as Hf. unfold flagged in Hf.
      destruct (body x s) as [[ended |] s1]; cbn [fst snd] in *; [exact I |].
      apply IH; auto.
    + destruct (body x s) as [[ended |] s1]; [exact I |].
      apply IH; auto.
Qed.

(** X10.  One rejected [@deprecated] tag anywhere fails the check: when some
    tag has no text, a text in neither format, or an [in] version that is
    not ahead of [VERSION], the run does not complete, with or without
    [--fail-fast]. *)
Theorem rejected_tag_fails_the_check (ff : bool) (files : list File) :
  some_tag rejected files ->
  fst (main ff files) <> Completed.
Proof.
  intros (f & ds & d & ts & t & Hf & Hdocs & Hd & Htags & Ht & Hbad).
  unfold main.
  assert (Hrun : flagged (each (check_file ff) files (mkState false []))).
  { apply (each_flagged (check_file ff)
             (fun f => exists ds d ts t,
                  docs f = inr ds /\ In d ds /\ tags d = Some ts /\ In t ts
                  /\ rejected t)).
    - intros f0 s Hs. unfold check_file.
      destruct (docs f0) as [e | ds0]; [exact I |].
      apply (each_flagged (check_doc ff (path f0)) (fun _ => False));
        [| intros ? ? ? [] | left; exact Hs].
      intros d0 s0 Hs0. unfold check_doc.
      destruct (tags d0) as [ts0 |]; [| exact Hs0].
      apply (each_flagged (check_tag ff (path f0) d0) (fun _ => False));
        [| intros ? ? ? [] | left; exact Hs0].
      intros t0 s1. apply check_tag_keeps_flag.
    - intros f0 s _ (ds0 & d0 & ts0 & t0 & Hdocs0 & Hd0 & Htags0 & Ht0 & Hb0).
      unfold check_file. rewrite Hdocs0.
      apply (each_flagged (check_doc ff (path f0))
               (fun d => exists ts t,
                    tags d = Some ts /\ In t ts /\ rejected t)).
      + intros d1 s0 Hs0. unfold check_doc.
        destruct (tags d1) as [ts1 |]; [| exact Hs0].
        apply (each_flagged (check_tag ff (path f0) d1) (fun _ => False));
          [| intros ? ? ? [] | left; exact Hs0].
        intros t1 s1. apply check_tag_keeps_flag.
      + intros d1 s0 _ (ts1 & t1 & Htags1 & Ht1 & Hb1).
        unfold check_doc. rewrite Htags1.
        apply (each_flagged (check_tag ff (path f0) d1) rejected).
        * intros t2 s1. apply check_tag_keeps_flag.
        * intros t2 s1 _. apply check_tag_rejected.
        * right. exists t1. split; assumption.
      + right. exists d0. split; [exact Hd0 |]. exists ts0, t0. auto.
    - right. exists f. split; [exact Hf |]. exists ds, d, ts, t. auto. }
  unfold flagged in Hrun.
  destruct (each (check_file ff) files (mkState false []))
    as [[ended |] s]; cbn [fst snd] in *; [discriminate |].
  rewrite Hrun. discriminate.
Qed.

(** ** The message formats *)

Lemma append_assoc (a b c : string) : (a ++ b) ++ c = a ++ (b ++ c).
Proof. induction a as [| x a IH]; cbn; [reflexivity | now rewrite IH]. Qed.

Lemma strip_prefix_app (p s : string) : strip_prefix p (p ++ s) = Some s.
Proof.
  induction p as [| a p IH]; cbn; [destruct s; reflexivity |].
  rewrite Ascii.eqb_refl. exact IH.
Qed.

Lemma strip_prefix_inv (p s r : string) :
  strip_prefix p s = Some r -> s = p ++ r.
Proof.
  revert s. induction p as [| a p IH]; intros s; cbn.
  - destruct s; intros Heq; injection Heq as <-; reflexivity.
  - destruct s as [| b s]; [discriminate |].
    destruct (Ascii.eqb a b) eqn:Hab; [| discriminate].
    apply Ascii.eqb_eq in Hab. subst b. intros Heq.
    rewrite (IH _ Heq). reflexivity.
Qed.

Lemma span_digits_app (d : string) (c : ascii) (rest : string) :
  all_digits d = true ->
  is_digit c = false ->
  span_digits (d ++ String c rest) = (d, String c rest).
Proof.
  intros Hd Hc. induction d as [| x d IH]; cbn.
  - rewrite Hc. reflexivity.
  - cbn in Hd. apply Bool.andb_true_iff in Hd. destruct Hd as [Hx Hd].
    rewrite Hx, (IH Hd). reflexivity.
Qed.

Lemma span_digits_inv (s : string) :
  s = fst (span_digits s) ++ snd (span_digits s)
  /\ all_digits (fst (span_digits s)) = true.
Proof.
  induction s as [| c s [IH1 IH2]]; cbn; [auto |].
  destruct (is_digit c) eqn:Hc; cbn; [| auto].
  rewrite Hc, IH2, <- IH1. auto.
Qed.

Lemma digits_then_app (c : ascii) (d rest : string) :
  number d ->
  is_digit c = false ->
  digits_then c (d ++ String c rest) = Some (d, rest).
Proof.
  intros [Hne Hd] Hc. unfold digits_then.
  rewrite (span_digits_app d c rest Hd Hc).
  destruct d as [| x d]; [contradiction |].
  rewrite Ascii.eqb_refl. reflexivity.
Qed.

Lemma digits_then_inv (c : ascii) (s d rest : string) :
  digits_then c s = Some (d, rest) ->
  number d /\ s = d ++ String c rest.
Proof.
  unfold digits_then. destruct (span_digits_inv s) as [Hs Hd].
  destruct (span_digits s) as [[| x ds] [| c' r]]; cbn [fst snd] in *;
    try discriminate.
  destruct (Ascii.eqb c' c) eqn:Hc; [| discriminate].
  apply Ascii.eqb_eq in Hc. subst c'. intros Heq. injection Heq as <- <-.
  split; [split; [discriminate | exact Hd] | exact Hs].
Qed.

Lemma exec_version_app (opening major minor patch rest : string) :
  number major -> number minor -> number patch ->
  exec_version opening
    (opening ++ major ++ "." ++ minor ++ "." ++ patch ++ ")" ++ rest)
  = Some (major ++ "." ++ minor ++ "." ++ patch).
Proof.
  intros H1 H2 H3. unfold exec_version. rewrite strip_prefix_app.
  cbn [append]. rewrite (digits_then_app "." major _ H1 eq_refl).
  rewrite (digits_then_app "." minor _ H2 eq_refl).
  rewrite (digits_then_app ")" patch _ H3 eq_refl). reflexivity.
Qed.

Lemma exec_version_inv (opening message version : string) :
  exec_version opening message = Some version ->
  exists major minor patch rest,
    number major /\ number minor /\ number patch
    /\ version = major ++ "." ++ minor ++ "." ++ patch
    /\ message = opening ++ version ++ ")" ++ rest.
Proof.
  unfold exec_version.
  destruct (strip_prefix opening message) as [r0 |] eqn:H0; [| discriminate].
  destruct (digits_then "." r0) as [[major r1] |] eqn:H1; [| discriminate].
  destruct (digits_then "." r1) as [[minor r2] |] eqn:H2; [| discriminate].
  destruct (digits_then ")" r2) as [[patch r3] |] eqn:H3; [| discriminate].
  intros Heq. injection Heq as <-.
  apply strip_prefix_inv in H0.
  apply digits_then_inv in H1, H2, H3.
  destruct H1 as [N1 ->], H2 as [N2 ->], H3 as [N3 ->].
  exists major, minor, patch, r3.
  split; [exact N1 |]. split; [exact N2 |]. split; [exact N3 |].
  split; [reflexivity |].
  rewrite H0. f_equal. cbn [append].
  rewrite append_assoc. cbn [append]. f_equal. f_equal.
  rewrite append_assoc. reflexivity.
Qed.

(** X11.  The check reads back what it asks for: a text that opens with
    [(will be removed in X.Y.Z)], where X, Y and Z are runs of digits, is in
    the [in] format with version [X.Y.Z], whatever follows the closing
    parenthesis; likewise [(will be removed after X.Y.Z)] and the [after]
    format. *)
Theorem formats_accept_a_version (major minor patch rest : string) :
  number major -> number minor -> number patch ->
  DEPRECATION_IN_FORMAT_REGEX
    ("(will be removed in " ++ major ++ "." ++ minor ++ "." ++ patch
       ++ ")" ++ rest)
  = Some (major ++ "." ++ minor ++ "." ++ patch)
  /\ DEPRECATION_AFTER_FORMAT_REGEX
       ("(will be removed after " ++ major ++ "." ++ minor ++ "." ++ patch
          ++ ")" ++ rest)
     = Some (major ++ "." ++ minor ++ "." ++ patch).
Proof.
  intros H1 H2 H3. split.
  - apply (exec_version_app "(will be removed in "); assumption.
  - apply (exec_version_app "(will be removed after "); assumption.
Qed.

(** X12.  A text is in at most one format, and a version read from it is
    three runs of digits joined by dots, copied from the text: when the [in]
    format gives a version, the text is [(will be removed in ] followed by
    that version and a closing parenthesis, and it is not in the [after]
    format; and the same with the two formats exchanged. *)
Theorem formats_are_exclusive (message version : string) :
  (DEPRECATION_IN_FORMAT_REGEX message = Some version ->
   DEPRECATION_AFTER_FORMAT_REGEX message = None
   /\ exists major minor patch rest,
       number major /\ number minor /\ number patch
       /\ version = major ++ "." ++ minor ++ "." ++ patch
       /\ message = "(will be removed in " ++ version ++ ")" ++ rest)
  /\ (DEPRECATION_AFTER_FORMAT_REGEX message = Some version ->
      DEPRECATION_IN_FORMAT_REGEX message = None
      /\ exists major minor patch rest,
          number major /\ number minor /\ number patch
          /\ version = major ++ "." ++ minor ++ "." ++ patch
          /\ message = "(will be removed after " ++ version ++ ")" ++ rest).
Proof.
  split; intros Hv; (split; [| exact (exec_version_inv _ _ _ Hv)]);
    destruct (exec_version_inv _ _ _ Hv)
      as (major & minor & patch & rest & _ & _ & _ & _ & ->);
    reflexivity.
Qed.

End DeprecationProperties.

(** * Scenarios for the deprecation check *)

Section DeprecationScenarios.

Import Deprecation.

#[local] Existing Instance stub.

Lemma exit_status_matches_console_witness :
  fst (main true sample) = Stopped (Exit 1)
  /\ existsb is_error (snd (main true sample)) = true.
Proof.
  split; [reflexivity |].
  exact (proj2 (exit_status_matches_console true sample)).
Defined.

Lemma fail_fast_agrees_witness :
  starts (snd (main true sample)) (snd (main false sample))
  /\ length (snd (main true sample)) = 2
  /\ length (snd (main false sample)) = 3.
Proof.
  split; [exact (proj1 (fail_fast_agrees sample)) |].
  split; reflexivity.
Defined.

Lemma after_format_never_fails_witness :
  every_tag after_format tidy
  /\ fst (main true tidy) = Completed
  /\ length (snd (main true tidy)) = 1
  /\ existsb is_error (snd (main true tidy)) = false.
Proof.
  assert (Hall : every_tag after_format tidy).
  { intros f ds d ts t [<- | []] Hdocs. injection Hdocs as <-.
    intros [<- | []] Htags. injection Htags as <-.
    intros [<- | [<- | []]].
    - left. discriminate.
    - right. eexists _, _. split; [reflexivity |].
      split; [discriminate | reflexivity]. }
  split; [exact Hall |]. split; [reflexivity |]. split; [reflexivity |].
  exact (proj1 (proj2 (after_format_never_fails true tidy Hall))).
Defined.

(** A version with a leading zero is in the [after] format and is refused by
    [semver.parse]: the check ends in that exception, with nothing on the
    console. *)
Example padded_version_is_uncaught :
  @main strict true padded
  = (Stopped (Uncaught (mkError "Invalid Version: 01.2.3")), []).
Proof. reflexivity. Qed.

Lemma rejected_tag_fails_the_check_witness :
  some_tag rejected sample
  /\ fst (main false sample) <> Completed.
Proof.
  assert (Hsome : some_tag rejected sample).
  { eexists _, _, _, _, _.
    split; [right; left; reflexivity |]. split; [reflexivity |].
    split; [right; left; reflexivity |]. split; [reflexivity |].
    split; [left; reflexivity |]. split; [reflexivity |].
    left. reflexivity. }
  split; [exact Hsome |].
  exact (rejected_tag_fails_the_check false sample Hsome).
Defined.

Lemma formats_accept_a_version_witness :
  number "10" /\ number "20" /\ number "3"
  /\ DEPRECATION_IN_FORMAT_REGEX "(will be removed in 10.20.3). Use x."
     = Some "10.20.3".
Proof.
  assert (N1 : number "10") by (split; [discriminate | reflexivity]).
  assert (N2 : number "20") by (split; [discriminate | reflexivity]).
  assert (N3 : number "3") by (split; [discriminate | reflexivity]).
  split; [exact N1 |]. split; [exact N2 |]. split; [exact N3 |].
  exact (proj1 (formats_accept_a_version "10" "20" "3" ". Use x." N1 N2 N3)).
Defined.

Lemma formats_are_exclusive_witness :
  DEPRECATION_AFTER_FORMAT_REGEX "(will be removed after 1.2.3)"
  = Some "1.2.3"
  /\ DEPRECATION_IN_FORMAT_REGEX "(will be removed after 1.2.3)" = None.
Proof.
  split; [reflexivity |].
  exact (proj1 (proj2 (formats_are_exclusive
                         "(will be removed after 1.2.3)" "1.2.3")
                      eq_refl)).
Defined.

End DeprecationScenarios.

(** * Properties of the npm build script *)

Section BuildProperties.

Import BuildNpm.

Context {H : Host}.

(** ** Running a sequence of awaits *)




(** ** An unknown package *)

(** X13.  A name on the command line that no package has stops the build
    script, but only after [./npm] has been emptied: emptying [./npm] is the
    one operation performed, nothing is built, and the script rejects with
    [Could not find package <name>] (or with the error of [emptyDir]). *)
Theorem unknown_package_builds_nothing
  (table : list Package.t) (p : Positional) w :
  truthy (Some p) = true ->
  filter (named p) table = [] ->
  ops (build_all table (Some p) w) = [Op_emptyDir "./npm"]
  /\ disk (build_all table (Some p) w) = snd (emptyDir "./npm" w)
  /\ settled (build_all table (Some p) w)
     = match fst (emptyDir "./npm" w) with
       | inl e => inl e
       | inr _ => inl (mkError ("Could not find package " ++ text_of p))
       end.
Proof.
  intros Ht Hnone. unfold build_all, select. rewrite Ht, Hnone.
  unfold seq, perform, raise. cbn [settled disk ops].
  destruct (emptyDir "./npm" w) as [[e | []] w1]; cbn; auto.
Qed.

(** ** What is built, and what is cleaned up *)








(** ** The cleanup *)

(** The script is its part up to the cleanup, and then the cleanup. *)
Lemma build_all_cleanup (table : list Package.t) arg w :
  settled (build_phase table arg w) = inr tt ->
  let cleanup :=
    for_each remove_node_modules table (disk (build_phase table arg w)) in
  build_all table arg w
  = mkOutcome (settled cleanup) (disk cleanup)
              (ops (build_phase table arg w) ++ ops cleanup).
Proof.
  cbv zeta. unfold build_all, build_phase, seq. cbn [settled disk ops].
  destruct (settled (perform _ _ w)) as [e | []]; [discriminate |].
  cbn [settled disk ops].
  destruct (select table arg) as [e | l]; cbn [raise pure settled disk ops];
    [discriminate |].
  intros Hs. rewrite Hs. cbn [settled disk ops].
  rewrite !app_nil_l, app_assoc. reflexivity.
Qed.

Lemma remove_node_modules_run (pkg : Package.t) w :
  remove_node_modules pkg w
  = mkOutcome (fst (Deno_remove (node_modules_of pkg) w))
              (snd (Deno_remove (node_modules_of pkg) w))
              [cleanup_op pkg].
Proof. reflexivity. Qed.

(** The cleanup loop removes the [node_modules] of some initial part of the
    packages; it is fulfilled when that is all of them, and rejected by the
    removal it attempted last. *)
Lemma cleanup_run (pkgs : list Package.t) w :
  exists done rest,
    pkgs = (done ++ rest)%list
    /\ ops (for_each remove_node_modules pkgs w) = map cleanup_op done
    /\ disk (for_each remove_node_modules pkgs w) = removed done w
    /\ (settled (for_each remove_node_modules pkgs w) = inr tt -> rest = [])
    /\ (forall e,
          settled (for_each remove_node_modules pkgs w) = inl e ->
          exists before pkg,
            done = (before ++ [pkg])%list
            /\ fst (Deno_remove (node_modules_of pkg) (removed before w))
               = inl e).
Proof.
  revert w. induction pkgs as [| p pkgs IH]; intros w.
  - exists [], []. cbn. repeat split; auto. discriminate.
  - cbn [for_each]. unfold seq. rewrite remove_node_modules_run.
    cbn [settled disk ops].
    destruct (Deno_remove (node_modules_of p) w) as [[e | []] w1] eqn:Hrm;
      cbn [fst snd settled disk ops].
    + exists [p], pkgs. cbn [app map removed]. rewrite Hrm.
      split; [reflexivity |]. split; [reflexivity |].
      split; [reflexivity |]. split; [discriminate |].
      intros e' [= <-]. exists [], p. cbn [app removed]. rewrite Hrm. auto.
    + destruct (IH w1) as (done & rest & -> & Hops & Hdisk & Hful & Hrej).
      exists (p :: done), rest. cbn [app map removed]. rewrite Hrm.
      cbn [snd]. rewrite Hops, Hdisk.
      split; [reflexivity |]. split; [reflexivity |].
      split; [reflexivity |]. split; [exact Hful |].
      intros e He. destruct (Hrej e He) as (before & pkg & -> & Hlast).
      exists (p :: before), pkg. cbn [app removed]. rewrite Hrm. auto.
Qed.

(** The cleanup loop is fulfilled exactly when every removal is. *)
Lemma cleanup_fulfilled (pkgs : list Package.t) w :
  settled (for_each remove_node_modules pkgs w) = inr tt
  <-> forall before pkg after,
        pkgs = (before ++ pkg :: after)%list ->
        fst (Deno_remove (node_modules_of pkg) (removed before w)) = inr tt.
Proof.
  revert w. induction pkgs as [| p pkgs IH]; intros w.
  - split; [| reflexivity].
    intros _ [| b before] pkg after Heq; discriminate Heq.
  - cbn [for_each]. unfold seq. rewrite remove_node_modules_run.
    cbn [settled disk ops].
    destruct (Deno_remove (node_modules_of p) w) as [[e | []] w1] eqn:Hrm;
      cbn [fst snd settled disk ops].
    + split; [discriminate |]. intros Hall.
      specialize (Hall [] p pkgs eq_refl). cbn [removed] in Hall.
      rewrite Hrm in Hall. discriminate Hall.
    + rewrite (IH w1). split.
      * intros Hall [| b before] pkg after Heq; cbn [app] in Heq;
          injection Heq as Hp Hrest.
        -- subst pkg. cbn [removed]. rewrite Hrm. reflexivity.
        -- subst b. cbn [removed]. rewrite Hrm. cbn [snd].
           apply (Hall before pkg after Hrest).
      * intros Hall before pkg after ->.
        specialize (Hall (p :: before) pkg after eq_refl).
        cbn [removed] in Hall. rewrite Hrm in Hall. exact Hall.
Qed.

(** X15.  The cleanup at the end of the build script goes over the whole
    table, not over the selection, and nothing guards it: once the build
    loop is fulfilled, the [node_modules] of the packages of the table are
    removed in order, selected or not, up to the first removal that rejects,
    and that rejection is the script's; the script is fulfilled exactly when
    the removal is fulfilled for every package of the table, each in the disk
    the removals before it left. *)
Theorem cleanup_covers_every_package (table : list Package.t) arg w :
  settled (build_phase table arg w) = inr tt ->
  (exists done rest,
      table = (done ++ rest)%list
      /\ ops (build_all table arg w)
         = (ops (build_phase table arg w) ++ map cleanup_op done)%list
      /\ disk (build_all table arg w)
         = removed done (disk (build_phase table arg w))
      /\ (settled (build_all table arg w) = inr tt -> rest = [])
      /\ (forall e,
            settled (build_all table arg w) = inl e ->
            exists before pkg,
              done = (before ++ [pkg])%list
              /\ fst (Deno_remove (node_modules_of pkg)
                        (removed before (disk (build_phase table arg w))))
                 = inl e))
  /\ (settled (build_all table arg w) = inr tt
      <-> forall before pkg after,
            table = (before ++ pkg :: after)%list ->
            fst (Deno_remove (node_modules_of pkg)
                   (removed before (disk (build_phase table arg w))))
            = inr tt).
Proof.
  intros Hs. rewrite (build_all_cleanup table arg w Hs).
  cbn [settled disk ops]. split.
  - destruct (cleanup_run table (disk (build_phase table arg w)))
      as (done & rest & Htable & Hops & Hdisk & Hful & Hrej).
    exists done, rest. rewrite Hops, Hdisk. auto.
  - apply cleanup_fulfilled.
Qed.

(** ** Dependencies of the generated package.json *)











End BuildProperties.

(** * Scenarios for the npm build script *)

Section BuildScenarios.

Import BuildNpm.

#[local] Existing Instance stub.

Lemma unknown_package_builds_nothing_witness :
  truthy (Some nope) = true
  /\ filter (named nope) packages = []
  /\ ops (main (Some nope) blank) = [Op_emptyDir "./npm"]
  /\ settled (main (Some nope) blank)
     = inl (mkError "Could not find package nope").
Proof.
  split; [reflexivity |]. split; [reflexivity |].
  destruct (unknown_package_builds_nothing packages nope blank
              eq_refl eq_refl) as (Ho & _ & Hs).
  split; [exact Ho | exact Hs].
Defined.



End BuildScenarios.

(** * The cleanup on a disk where a missing path cannot be removed *)

Section CleanupScenarios.

Import BuildNpm.

#[local] Existing Instance paths.

(** Built alone, the plugin's package is built and adjusted; the cleanup
    then starts with the package that was not built, whose [node_modules]
    is not there: the script is rejected at that removal, and the
    [node_modules] of the package that was built stays on the disk. *)
Lemma cleanup_covers_every_package_witness :
  settled (build_phase packages plugin_only checkout) = inr tt
  /\ settled (main plugin_only checkout)
     = inl (mkError
              "NotFound: /repo/./npm/@nifty-lil-tricks/testing/node_modules")
  /\ disk (main plugin_only checkout)
     = ["/repo/mod.ts";
        "/repo/./npm/@nifty-lil-tricks/testing-plugin-postgresql/package.json";
        "/repo/./npm/@nifty-lil-tricks/testing-plugin-postgresql/node_modules"]
  /\ exists done rest,
      packages = (done ++ rest)%list
      /\ ops (main plugin_only checkout)
         = (ops (build_phase packages plugin_only checkout)
              ++ map cleanup_op done)%list
      /\ exists before pkg,
          done = (before ++ [pkg])%list
          /\ fst (Deno_remove (node_modules_of pkg)
                    (removed before
                       (disk (build_phase packages plugin_only checkout))))
             = inl (mkError
                      "NotFound: /repo/./npm/@nifty-lil-tricks/testing/node_modules").
Proof.
  split; [reflexivity |]. split; [reflexivity |]. split; [reflexivity |].
  destruct (cleanup_covers_every_package packages plugin_only checkout
              eq_refl) as [(done & rest & Htable & Hops & _ & _ & Hrej) _].
  exists done, rest. split; [exact Htable |]. split; [exact Hops |].
  exact (Hrej _ eq_refl).
Defined.

(** Built all, both packages have their [node_modules] removed and the
    script is fulfilled. *)
Example whole_table_is_cleaned_up :
  settled (main None checkout) = inr tt
  /\ disk (main None checkout)
     = ["/repo/mod.ts";
        "/repo/./npm/@nifty-lil-tricks/testing/package.json";
        "/repo/./npm/@nifty-lil-tricks/testing-plugin-postgresql/package.json"].
Proof. split; reflexivity. Qed.

End CleanupScenarios.
